(** * The PDF chat worker ([src/app/worker.ts]) as a shallow embedding

    The worker is sequencing glue around four outside services: the PDF
    parser, the text splitter, the vector index and the language model.
    The embedding keeps the worker's own code as executable definitions
    and takes the services as the fields of a class, [Externals].

    Every observable effect (a [self.postMessage], a call into a service,
    a fragment pulled from the model stream) is recorded, in program
    order, in the trace of a small state / writer / exception monad, so
    that ordering statements are statements about a list. *)

From Stdlib Require Import String Ascii List Arith Lia Bool ZArith.
From Stdlib Require Import DecimalString.
Import ListNotations.
Local Open Scope list_scope.
Local Open Scope string_scope.

(* ================================================================== *)
(** ** JavaScript values reaching the dynamic parts of the worker *)
(* ================================================================== *)

Module Js.

(** The handler's [event] is typed [any] and the [pdf] field is tested
    for truthiness: the primitive values a structured clone can deliver,
    and objects as lists of fields.  Objects with cycles have no
    representation here; what [JSON.stringify] does with a message is
    left to the services below. *)
#[warnings="-register-all"]
Inductive value : Type :=
| Undefined
| Null
| Boolean (b : bool)
| Number (z : Z)
| NaN
| BigInt (z : Z)
| Str (s : string)
| Object (fields : list (string * value)).

Definition nonempty (s : string) : bool :=
  match s with
  | EmptyString => false
  | String _ _ => true
  end.

(** ECMAScript ToBoolean. *)
Definition truthy (v : value) : bool :=
  match v with
  | Undefined | Null | NaN => false
  | Boolean b => b
  | Number z => negb (Z.eqb z 0)
  | BigInt z => negb (Z.eqb z 0)
  | Str s => nonempty s
  | Object _ => true
  end.

(** A BigInt, or an object holding one: [JSON.stringify] throws a
    TypeError on such a value. *)
Fixpoint has_bigint (v : value) : bool :=
  match v with
  | BigInt _ => true
  | Object fields =>
      (fix any (l : list (string * value)) : bool :=
         match l with
         | [] => false
         | (_, x) :: rest => has_bigint x || any rest
         end) fields
  | _ => false
  end.

Inductive error : Type :=
| TypeError (what : string)
| Rejected (service : string).

Definition newline : string := String (ascii_of_nat 10) EmptyString.
Definition dquote : string := String (ascii_of_nat 34) EmptyString.

(** [Array.prototype.join]. *)
Fixpoint join (sep : string) (parts : list string) : string :=
  match parts with
  | [] => ""
  | [p] => p
  | p :: rest => p ++ sep ++ join sep rest
  end.

(** [String.prototype.split] for a one-character separator: the
    fields between occurrences of [sep], always at least one. *)
Fixpoint split (sep : ascii) (s : string) : list string :=
  match s with
  | EmptyString => [""]
  | String c rest =>
      if Ascii.eqb c sep then "" :: split sep rest
      else match split sep rest with
           | [] => [String c ""]
           | field :: fields => String c field :: fields
           end
  end.

(** [array[i]]: [undefined] (here [None]) outside [0 .. length-1];
    the index is an integer and may be negative. *)
Definition index {A : Type} (array : list A) (i : Z) : option A :=
  if (i <? 0)%Z then None else nth_error array (Z.to_nat i).

(** The relative index of [Array.prototype.slice]: negative counts
    from the end, and the result is clamped to [0 .. length]. *)
Definition relative {A : Type} (array : list A) (k : Z) : nat :=
  let len := Z.of_nat (length array) in
  if (k <? 0)%Z then Z.to_nat (Z.max (len + k) 0)
  else Z.to_nat (Z.min k len).

(** [array.slice(start, stop)]. *)
Definition slice {A : Type} (array : list A) (start stop : Z) : list A :=
  let from := relative array start in
  let to := relative array stop in
  firstn (to - from) (skipn from array).

(** [array.map((x, i) => f(x, i))], the index counted from [i]. *)
Fixpoint mapi_from {A B : Type} (f : A -> nat -> B) (i : nat) (array : list A) : list B :=
  match array with
  | [] => []
  | x :: rest => f x i :: mapi_from f (S i) rest
  end.

Definition mapi {A B : Type} (f : A -> nat -> B) (array : list A) : list B :=
  mapi_from f 0 array.

(** ToString of an array element that may be [undefined]. *)
Definition to_string (o : option string) : string :=
  match o with
  | Some s => s
  | None => "undefined"
  end.

(** Template-literal rendering of a number. *)
Definition of_nat (n : nat) : string :=
  NilEmpty.string_of_uint (Nat.to_uint n).

End Js.

(* ================================================================== *)
(** ** Prompt templates

    [PromptTemplate.fromTemplate] and [ChatPromptTemplate] come from the
    prompt library.  The worker's templates use single-brace
    placeholders only; the model below replaces each [{name}] by the
    value bound to [name] and fails on a name with no binding, on an
    unclosed brace and on a closing brace that closes nothing. *)
(* ================================================================== *)

Module Template.

Inductive node : Type :=
| Literal (text : string)
| Placeholder (name : string).

Definition open_brace : ascii := ascii_of_nat 123.
Definition close_brace : ascii := ascii_of_nat 125.

Definition push_char (c : ascii) (nodes : list node) : list node :=
  match nodes with
  | Literal t :: rest => Literal (String c t) :: rest
  | _ => Literal (String c "") :: nodes
  end.

(** [parse] reads literal text, [parse_name] reads a placeholder name
    up to its closing brace. *)
Fixpoint parse (s : string) : option (list node) :=
  match s with
  | EmptyString => Some []
  | String c rest =>
      if Ascii.eqb c open_brace then parse_name rest
      else if Ascii.eqb c close_brace then None
      else option_map (push_char c) (parse rest)
  end
with parse_name (s : string) : option (list node) :=
  match s with
  | EmptyString => None
  | String c rest =>
      if Ascii.eqb c close_brace
      then option_map (cons (Placeholder "")) (parse rest)
      else match parse_name rest with
           | Some (Placeholder n :: nodes) => Some (Placeholder (String c n) :: nodes)
           | _ => None
           end
  end.

Fixpoint lookup (name : string) (env : list (string * string)) : option string :=
  match env with
  | [] => None
  | (k, v) :: rest => if String.eqb k name then Some v else lookup name rest
  end.

Fixpoint render (nodes : list node) (env : list (string * string)) : option string :=
  match nodes with
  | [] => Some ""
  | Literal t :: rest => option_map (append t) (render rest env)
  | Placeholder n :: rest =>
      match lookup n env, render rest env with
      | Some v, Some tail => Some (v ++ tail)
      | _, _ => None
      end
  end.

Definition format (template : string) (env : list (string * string)) : option string :=
  match parse template with
  | Some nodes => render nodes env
  | None => None
  end.

End Template.

(* ================================================================== *)
(** ** Data model *)
(* ================================================================== *)

(** Modelled from the spec: the declaration of [ChatWindowMessage]
    ([@/schema/ChatWindowMessage]) is not among the sources; the data
    model gives it as [{ role: "human" | "ai", content: string }]. *)
Inductive Role : Type := human | ai.

Definition role_name (r : Role) : string :=
  match r with
  | human => "human"
  | ai => "ai"
  end.

Record ChatWindowMessage : Type := {
  role : Role;
  content : string
}.

(** The message classes of the model library that the worker builds. *)
Inductive BaseMessage : Type :=
| SystemMessage (text : string)
| HumanMessage (text : string)
| AIMessage (text : string).

Definition message_text (m : BaseMessage) : string :=
  match m with
  | SystemMessage t | HumanMessage t | AIMessage t => t
  end.

(** What a prompt hands to the model: a plain string prompt or a list
    of chat messages. *)
Inductive PromptValue : Type :=
| StringPromptValue (text : string)
| ChatPromptValue (messages : list BaseMessage).

(** The [metadata] object the worker attaches to a page document
    ([worker.ts], lines 104-114).  [lines] is absent there; the splitter
    may add it. *)
Record PdfMetadata : Type := {
  version : string;
  info : Js.value;
  metadata : Js.value;
  totalPages : nat
}.

Record Loc : Type := {
  pageNumber : nat;
  lines : option (nat * nat)
}.

Record DocMetadata : Type := {
  pdf : PdfMetadata;
  loc : Loc
}.

(** A document of the document library; [pageContent] may be left
    [undefined] ([None]). *)
Record Document : Type := {
  pageContent : option string;
  doc_metadata : DocMetadata
}.

(** [new Document({ pageContent, metadata })]: the constructor of the
    document library, which is not among the sources, stores the content
    only when it is truthy; for the empty string the field is left
    undefined. *)
Definition new_Document (fields_pageContent : string) (fields_metadata : DocMetadata)
    : Document := {|
  pageContent :=
    if Js.truthy (Js.Str fields_pageContent) then Some fields_pageContent else None;
  doc_metadata := fields_metadata
|}.

(** The parts of the PDF library's objects that the worker reads. *)
Record TextItem : Type := { str : string }.

Record TextContent : Type := { items : list TextItem }.

Record PDFPageProxy : Type := {
  getTextContent : Js.error + TextContent
}.

Record Meta : Type := {
  meta_info : Js.value;
  meta_metadata : Js.value
}.

Record PDFDocumentProxy : Type := {
  numPages : nat;
  getMetadata : Js.error + Meta;
  getPage : nat -> Js.error + PDFPageProxy
}.

(** The token stream of the model: the fragments it yields and, when
    the stream breaks, the error raised after the last of them. *)
Record Stream : Type := {
  fragments : list string;
  failure : option Js.error
}.

(** The input objects of the two chains (lines 145-148 and 150-160). *)
Module RetrievalInput.
Record t : Type := {
  question : string;
  chat_history : string
}.
End RetrievalInput.

Module ResponseInput.
Record t : Type := {
  question : string;
  chat_history : list BaseMessage;
  context : string
}.
End ResponseInput.

(** [event.data] of an inbound message. *)
Record EventData : Type := {
  data_pdf : Js.value;
  data_messages : option (list ChatWindowMessage)
}.

(** An outbound message, [{ type, data }]. *)
Inductive Payload : Type :=
| Text (s : string)
| Docs (docs : list Document).

Record OutMessage : Type := {
  type : string;
  data : Payload
}.

(** Everything the worker does that can be seen from outside it. *)
Inductive Action : Type :=
| PostMessage (m : OutMessage)
| CallAtob (encoded : string)
| CallGetDocument (bytes : string)
| CallGetMetadata
| CallGetPage (i : nat)
| CallGetTextContent (i : nat)
| CallSplitDocuments (chunkSize chunkOverlap : nat) (documents : list Document)
| CallAddDocuments (docs : list Document)
| CallRetriever (query : string)
| CallModelInvoke (prompt : PromptValue)
| CallModelStream (prompt : PromptValue)
| StreamYield (fragment : string).

(* ================================================================== *)
(** ** The outside services *)
(* ================================================================== *)

Class Externals : Type := {
  (** the state of the in-memory vector index *)
  Voy : Type;
  (** [JSON.stringify(event.data)] for a message without BigInt in
      [pdf]; it may still throw, for instance on a cyclic message *)
  JSON_stringify : EventData -> Js.error + string;
  atob : string -> Js.error + string;
  pdf_version : string;
  pdf_getDocument : string -> Js.error + PDFDocumentProxy;
  splitDocuments : nat -> nat -> list Document -> Js.error + list Document;
  (** the index after the call, and the error when the call rejects:
      the store is mutated in place, so a rejected call may leave it
      changed *)
  voy_addDocuments : Voy -> list Document -> Voy * option Js.error;
  voy_similaritySearch : Voy -> string -> Js.error + list Document;
  ollama_invoke : PromptValue -> Js.error + BaseMessage;
  ollama_stream : PromptValue -> Stream
}.

(* ================================================================== *)
(** ** The worker monad: index state, trace of actions, exceptions *)
(* ================================================================== *)

Section Monad.

Context {E : Externals}.

Record Outcome (A : Type) : Type := mkOutcome {
  trace : list Action;
  index : Voy;
  result : Js.error + A
}.

Arguments mkOutcome {A} _ _ _.
Arguments trace {A} _.
Arguments index {A} _.
Arguments result {A} _.

Definition Worker (A : Type) : Type := Voy -> Outcome A.

Definition ret {A : Type} (a : A) : Worker A :=
  fun v => mkOutcome [] v (inr a).

Definition throw {A : Type} (e : Js.error) : Worker A :=
  fun v => mkOutcome [] v (inl e).

Definition bind {A B : Type} (m : Worker A) (k : A -> Worker B) : Worker B :=
  fun v =>
    let o := m v in
    match result o with
    | inl e => mkOutcome (trace o) (index o) (inl e)
    | inr a =>
        let o' := k a (index o) in
        mkOutcome (trace o ++ trace o')%list (index o') (result o')
    end.

(** [promise.catch(handler)]: what the failed action did stays done. *)
Definition catch {A : Type} (m : Worker A) (handler : Js.error -> Worker A) : Worker A :=
  fun v =>
    let o := m v in
    match result o with
    | inl e =>
        let o' := handler e (index o) in
        mkOutcome (trace o ++ trace o')%list (index o') (result o')
    | inr a => o
    end.

Definition emit (a : Action) : Worker unit :=
  fun v => mkOutcome [a] v (inr tt).

(** The settled value of an awaited promise. *)
Definition await {A : Type} (r : Js.error + A) : Worker A :=
  match r with
  | inl e => throw e
  | inr a => ret a
  end.

Definition get_index : Worker Voy :=
  fun v => mkOutcome [] v (inr v).

Definition put_index (v' : Voy) : Worker unit :=
  fun _ => mkOutcome [] v' (inr tt).

End Monad.

Arguments mkOutcome {E A} _ _ _.
Arguments trace {E A} _.
Arguments index {E A} _.
Arguments result {E A} _.

Declare Scope worker_scope.
Delimit Scope worker_scope with worker.
Notation "x <- m ;; k" := (bind m (fun x => k))
  (at level 61, m at next level, right associativity) : worker_scope.
Notation "m ;; k" := (bind m (fun _ => k))
  (at level 61, right associativity) : worker_scope.
Local Open Scope worker_scope.

(* ================================================================== *)
(** ** The worker ([src/app/worker.ts]) *)
(* ================================================================== *)

Section WorkerCode.

Context {E : Externals}.

Definition postMessage (m : OutMessage) : Worker unit :=
  emit (PostMessage m).

(** *** The service objects, each call recorded in the trace *)

(** The interfaces [createRetrievalChain] is written against. *)
Record BaseLanguageModel : Type := {
  invoke : PromptValue -> Worker BaseMessage;
  stream : PromptValue -> Worker Stream
}.

Record BaseRetriever : Type := {
  getRelevantDocuments : string -> Worker (list Document)
}.

Definition ollama : BaseLanguageModel := {|
  invoke := fun prompt =>
    emit (CallModelInvoke prompt) ;; await (ollama_invoke prompt);
  stream := fun prompt =>
    emit (CallModelStream prompt) ;; ret (ollama_stream prompt)
|}.

(** [vectorstore.asRetriever()]: a search of the index as it is when
    the retriever is invoked. *)
Definition vectorstore_asRetriever : BaseRetriever := {|
  getRelevantDocuments := fun query =>
    emit (CallRetriever query) ;;
    v <- get_index ;;
    await (voy_similaritySearch v query)
|}.

Definition vectorstore_addDocuments (docs : list Document) : Worker unit :=
  emit (CallAddDocuments docs) ;;
  v <- get_index ;;
  put_index (fst (voy_addDocuments v docs)) ;;
  match snd (voy_addDocuments v docs) with
  | Some e => throw e
  | None => ret tt
  end.

(** [new StringOutputParser()]. *)
Definition StringOutputParser (m : BaseMessage) : Worker string :=
  ret (message_text m).

(** *** Prompts (lines 31-54) *)

Definition REPHRASE_QUESTION_TEMPLATE : string :=
  "Given the following conversation and a follow up question, rephrase the follow up question to be a standalone question."
  ++ Js.newline
  ++ Js.newline
  ++ "Chat History:" ++ Js.newline
  ++ "{chat_history}" ++ Js.newline
  ++ "Follow Up Input: {question}" ++ Js.newline
  ++ "Standalone Question:".

Definition RESPONSE_SYSTEM_TEMPLATE : string :=
  "You are an experienced researcher, expert at interpreting and answering questions based on provided sources. Using the provided context, answer the user's question to the best of your ability using the resources provided."
  ++ Js.newline
  ++ "Generate a comprehensive and informative answer (but no more than 80 words) for a given question based solely on the provided search results (URL and content). You must only use information from the provided search results. Use an unbiased and journalistic tone. Combine search results together into a coherent answer. Do not repeat text."
  ++ Js.newline
  ++ "If there is nothing in the context relevant to the question at hand, just say "
  ++ Js.dquote ++ "Hmm, I'm not sure." ++ Js.dquote
  ++ " Don't try to make up an answer."
  ++ Js.newline
  ++ "Anything between the following `context` html blocks is retrieved from a knowledge bank, not part of the conversation with the user."
  ++ Js.newline
  ++ "<context>" ++ Js.newline
  ++ "    {context}" ++ Js.newline
  ++ "<context/>" ++ Js.newline
  ++ Js.newline
  ++ "REMEMBER: If there is no relevant information within the context, just say "
  ++ Js.dquote ++ "Hmm, I'm not sure." ++ Js.dquote
  ++ " Don't try to make up an answer. Anything between the preceding 'context' html blocks is retrieved from a knowledge bank, not part of the conversation with the user.".

Definition format_or_throw (template : string) (env : list (string * string)) : Worker string :=
  match Template.format template env with
  | Some text => ret text
  | None => throw (Js.Rejected "prompt template")
  end.

Definition rephraseQuestionChainPrompt (input : RetrievalInput.t) : Worker PromptValue :=
  text <- format_or_throw REPHRASE_QUESTION_TEMPLATE
            [("question", RetrievalInput.question input);
             ("chat_history", RetrievalInput.chat_history input)] ;;
  ret (StringPromptValue text).

Definition responseChainPrompt (input : ResponseInput.t) : Worker PromptValue :=
  system <- format_or_throw RESPONSE_SYSTEM_TEMPLATE
              [("context", ResponseInput.context input)] ;;
  user <- format_or_throw "{question}"
              [("question", ResponseInput.question input)] ;;
  ret (ChatPromptValue
         (SystemMessage system
            :: ResponseInput.chat_history input ++ [HumanMessage user])%list).

(** *** [formatDocs] (lines 56-58) *)

Definition formatDocs (docs : list Document) : string :=
  Js.join Js.newline
    (Js.mapi (fun doc i =>
                "<doc id='" ++ Js.of_nat i ++ "'>"
                  ++ Js.to_string (pageContent doc) ++ "</doc>")
             docs).

(** *** [createRetrievalChain] (lines 60-76) *)

(** [RunnableSequence.from([f, g])]: the output of a step is the
    input of the next. *)
Definition andThen {A B C : Type} (f : A -> Worker B) (g : B -> Worker C) : A -> Worker C :=
  fun a => b <- f a ;; g b.

Local Notation "f >=> g" := (andThen f g) (at level 60, right associativity).

Definition createRetrievalChain (llm : BaseLanguageModel) (retriever : BaseRetriever)
    (chatHistory : list ChatWindowMessage) : RetrievalInput.t -> Worker string :=
  if Js.truthy (Js.Number (Z.of_nat (length chatHistory))) then
    rephraseQuestionChainPrompt
      >=> invoke llm
      >=> StringOutputParser
      >=> getRelevantDocuments retriever
      >=> (fun docs => ret (formatDocs docs))
  else
    (fun input => ret (RetrievalInput.question input))
      >=> getRelevantDocuments retriever
      >=> (fun docs => ret (formatDocs docs)).

(** *** [embedPDF] (lines 78-132) *)

Definition call_atob (encoded : string) : Worker string :=
  emit (CallAtob encoded) ;; await (atob encoded).

Definition call_getDocument (bytes : string) : Worker PDFDocumentProxy :=
  emit (CallGetDocument bytes) ;; await (pdf_getDocument bytes).

Definition call_getMetadata (parsedPdf : PDFDocumentProxy) : Worker Meta :=
  emit CallGetMetadata ;; await (getMetadata parsedPdf).

Definition call_getPage (parsedPdf : PDFDocumentProxy) (i : nat) : Worker PDFPageProxy :=
  emit (CallGetPage i) ;; await (getPage parsedPdf i).

Definition call_getTextContent (page : PDFPageProxy) (i : nat) : Worker TextContent :=
  emit (CallGetTextContent i) ;; await (getTextContent page).

Definition call_splitDocuments (chunkSize chunkOverlap : nat) (documents : list Document)
    : Worker (list Document) :=
  emit (CallSplitDocuments chunkSize chunkOverlap documents) ;;
  await (splitDocuments chunkSize chunkOverlap documents).

(** [meta?.field]. *)
Definition optional_chain (meta : option Meta) (field : Meta -> Js.value) : Js.value :=
  match meta with
  | Some m => field m
  | None => Js.Undefined
  end.

(** The [new Document({...})] of lines 102-115. *)
Definition page_document (parsedPdf : PDFDocumentProxy) (meta : option Meta)
    (i : nat) (text : string) : Document :=
  new_Document text {|
    pdf := {|
      version := pdf_version;
      info := optional_chain meta meta_info;
      metadata := optional_chain meta meta_metadata;
      totalPages := numPages parsedPdf
    |};
    loc := {| pageNumber := i; lines := None |}
  |}.

(** The loop of lines 89-117, entered at page [i] with [todo] pages
    still to visit ([todo = numPages + 1 - i]). *)
Fixpoint pages_loop (parsedPdf : PDFDocumentProxy) (meta : option Meta)
    (todo i : nat) (documents : list Document) : Worker (list Document) :=
  match todo with
  | O => ret documents
  | S todo' =>
      page <- call_getPage parsedPdf i ;;
      content <- call_getTextContent page i ;;
      if Nat.eqb (length (items content)) 0 then
        pages_loop parsedPdf meta todo' (i + 1) documents
      else
        let text := Js.join Js.newline (map str (items content)) in
        pages_loop parsedPdf meta todo' (i + 1)
          (documents ++ [page_document parsedPdf meta i text])%list
  end.

Definition embedPDF (pdfDataUrl : string) : Worker unit :=
  bytes <- call_atob (Js.to_string (Js.index (Js.split "," pdfDataUrl) 1)) ;;
  parsedPdf <- call_getDocument bytes ;;
  meta <- catch (m <- call_getMetadata parsedPdf ;; ret (Some m))
                (fun _ => ret None) ;;
  documents <- pages_loop parsedPdf meta (numPages parsedPdf) 1 [] ;;
  docs <- call_splitDocuments 500 50 documents ;;
  postMessage {| type := "log"; data := Docs docs |} ;;
  vectorstore_addDocuments docs.

(** *** [queryVectorStore] (lines 134-175) *)

Definition history_line (message : ChatWindowMessage) : string :=
  role_name (role message) ++ ": " ++ content message.

Definition history_message (chatMessage : ChatWindowMessage) : BaseMessage :=
  if String.eqb (role_name (role chatMessage)) "human"
  then HumanMessage (content chatMessage)
  else AIMessage (content chatMessage).

(** The body of the [for await] loop, once per fragment. *)
Fixpoint relay (chunks : list string) : Worker unit :=
  match chunks with
  | [] => ret tt
  | chunk :: rest =>
      emit (StreamYield chunk) ;;
      (if Js.truthy (Js.Str chunk)
       then postMessage {| type := "chunk"; data := Text chunk |}
       else ret tt) ;;
      relay rest
  end.

Definition for_await (s : Stream) : Worker unit :=
  relay (fragments s) ;;
  match failure s with
  | Some e => throw e
  | None => ret tt
  end.

Definition responseChain_stream (input : ResponseInput.t) : Worker Stream :=
  (responseChainPrompt >=> stream ollama) input.

Definition queryVectorStore (messages : list ChatWindowMessage) : Worker unit :=
  match Js.index messages (Z.of_nat (length messages) - 1) with
  | None =>
      throw (Js.TypeError "Cannot read properties of undefined (reading 'content')")
  | Some last_message =>
      let text := content last_message in
      let chatHistory := Js.slice messages 0 (-1) in
      let retrievalChain :=
        createRetrievalChain ollama vectorstore_asRetriever chatHistory in
      formattedDocs <- retrievalChain {|
        RetrievalInput.question := text;
        RetrievalInput.chat_history :=
          Js.join Js.newline (map history_line chatHistory)
      |} ;;
      s <- responseChain_stream {|
        ResponseInput.question := text;
        ResponseInput.chat_history := map history_message chatHistory;
        ResponseInput.context := formattedDocs
      |} ;;
      for_await s ;;
      postMessage {| type := "complete"; data := Text "OK" |}
  end.

(** *** The message handler (lines 178-194) *)

(** [event] is typed [any]: a truthy [pdf] that is not a string has no
    [split] method, and an absent [messages] has no [length]. *)
Definition embedPDF_any (pdfDataUrl : Js.value) : Worker unit :=
  match pdfDataUrl with
  | Js.Str s => embedPDF s
  | _ => throw (Js.TypeError "pdfDataUrl.split is not a function")
  end.

Definition queryVectorStore_any (messages : option (list ChatWindowMessage)) : Worker unit :=
  match messages with
  | Some ms => queryVectorStore ms
  | None =>
      throw (Js.TypeError "Cannot read properties of undefined (reading 'length')")
  end.

(** [JSON.stringify(event.data)] (line 181): a BigInt in the message
    makes it throw; otherwise the service decides. *)
Definition stringify_data (event_data : EventData) : Js.error + string :=
  if Js.has_bigint (data_pdf event_data)
  then inl (Js.TypeError "Do not know how to serialize a BigInt")
  else JSON_stringify event_data.

Definition onmessage (event_data : EventData) : Worker unit :=
  json <- await (stringify_data event_data) ;;
  postMessage {| type := "log"; data := Text ("Received: " ++ json) |} ;;
  (if Js.truthy (data_pdf event_data)
   then embedPDF_any (data_pdf event_data)
   else queryVectorStore_any (data_messages event_data)) ;;
  postMessage {| type := "complete"; data := Text "OK" |}.

End WorkerCode.

(* ================================================================== *)
(** ** Reading a trace *)
(* ================================================================== *)

(** The outbound messages of a trace, in order. *)
Definition posted (t : list Action) : list OutMessage :=
  flat_map (fun a => match a with PostMessage m => [m] | _ => [] end) t.

Definition of_type (ty : string) (ms : list OutMessage) : list OutMessage :=
  filter (fun m => String.eqb (type m) ty) ms.

Definition chunk_message (fragment : string) : OutMessage :=
  {| type := "chunk"; data := Text fragment |}.

Definition complete_message : OutMessage :=
  {| type := "complete"; data := Text "OK" |}.

(** What one pass of the [for await] body leaves in the trace. *)
Definition relayed (fragment : string) : list Action :=
  StreamYield fragment ::
  (if Js.nonempty fragment then [PostMessage (chunk_message fragment)] else []).

(** Calls into the language model, of either kind. *)
Definition is_model_invoke (a : Action) : bool :=
  match a with CallModelInvoke _ => true | _ => false end.

Definition is_retrieval (a : Action) : bool :=
  match a with CallRetriever _ => true | _ => false end.

Definition is_post (a : Action) : bool :=
  match a with PostMessage _ => true | _ => false end.

Definition is_stream_action (a : Action) : bool :=
  match a with
  | CallModelStream _ | StreamYield _ => true
  | _ => false
  end.

(** Actions of the page loop. *)
Definition is_page_action (a : Action) : bool :=
  match a with
  | CallGetPage _ | CallGetTextContent _ => true
  | _ => false
  end.


(** The text items of page [i], when both reads succeed. *)
Definition page_items (parsedPdf : PDFDocumentProxy) (i : nat) : option (list TextItem) :=
  match getPage parsedPdf i with
  | inr page =>
      match getTextContent page with
      | inr content => Some (items content)
      | inl _ => None
      end
  | inl _ => None
  end.

(* ================================================================== *)
(** ** The two prompts, written out *)
(* ================================================================== *)

(** The rephrasing prompt for a joined history and a question. *)
Definition rephrase_text (chat_history question : string) : string :=
  "Given the following conversation and a follow up question, rephrase the follow up question to be a standalone question."
  ++ Js.newline ++ Js.newline
  ++ "Chat History:" ++ Js.newline
  ++ chat_history ++ Js.newline
  ++ "Follow Up Input: " ++ question ++ Js.newline
  ++ "Standalone Question:".

(** The system message around a retrieved context: the text of lines
    40-48 with the context between the two [context] tags. *)
Definition system_text (context : string) : string :=
  "You are an experienced researcher, expert at interpreting and answering questions based on provided sources. Using the provided context, answer the user's question to the best of your ability using the resources provided."
  ++ Js.newline
  ++ "Generate a comprehensive and informative answer (but no more than 80 words) for a given question based solely on the provided search results (URL and content). You must only use information from the provided search results. Use an unbiased and journalistic tone. Combine search results together into a coherent answer. Do not repeat text."
  ++ Js.newline
  ++ "If there is nothing in the context relevant to the question at hand, just say "
  ++ Js.dquote ++ "Hmm, I'm not sure." ++ Js.dquote
  ++ " Don't try to make up an answer."
  ++ Js.newline
  ++ "Anything between the following `context` html blocks is retrieved from a knowledge bank, not part of the conversation with the user."
  ++ Js.newline
  ++ "<context>" ++ Js.newline
  ++ "    " ++ context ++ Js.newline
  ++ "<context/>" ++ Js.newline
  ++ Js.newline
  ++ "REMEMBER: If there is no relevant information within the context, just say "
  ++ Js.dquote ++ "Hmm, I'm not sure." ++ Js.dquote
  ++ " Don't try to make up an answer. Anything between the preceding 'context' html blocks is retrieved from a knowledge bank, not part of the conversation with the user.".

(** One line of the joined history: the role, a colon and a space, the
    content. *)
Definition role_prefixed_line (message : ChatWindowMessage) : string :=
  match role message with
  | human => "human: " ++ content message
  | ai => "ai: " ++ content message
  end.

(** The text of the model's answer. *)
Definition answer_text (answer : BaseMessage) : string :=
  match answer with
  | SystemMessage text => text
  | HumanMessage text => text
  | AIMessage text => text
  end.

(** A message of the history as a typed message: a human message for
    the human, an AI message for the assistant. *)
Definition typed_message (message : ChatWindowMessage) : BaseMessage :=
  match role message with
  | human => HumanMessage (content message)
  | ai => AIMessage (content message)
  end.

Definition response_prompt (input : ResponseInput.t) : PromptValue :=
  ChatPromptValue
    (SystemMessage (system_text (ResponseInput.context input))
       :: ResponseInput.chat_history input
       ++ [HumanMessage (ResponseInput.question input)])%list.

(** The inputs [queryVectorStore] builds for a history and a last
    message (lines 145-148 and 150-160). *)
Definition retrieval_input (history : list ChatWindowMessage) (m : ChatWindowMessage)
    : RetrievalInput.t := {|
  RetrievalInput.question := content m;
  RetrievalInput.chat_history := Js.join Js.newline (map history_line history)
|}.

Definition response_input (history : list ChatWindowMessage) (m : ChatWindowMessage)
    (formattedDocs : string) : ResponseInput.t := {|
  ResponseInput.question := content m;
  ResponseInput.chat_history := map history_message history;
  ResponseInput.context := formattedDocs
|}.

(** The first message the handler posts (lines 179-182). *)
Definition received_message {E : Externals} (event_data : EventData) : OutMessage :=
  {| type := "log";
     data := Text ("Received: " ++ match stringify_data event_data with
                                   | inr json => json
                                   | inl _ => ""
                                   end) |}.



(** The argument of [atob] on line 80. *)
Definition encoded_part (pdfDataUrl : string) : string :=
  Js.to_string (Js.index (Js.split "," pdfDataUrl) 1).

(** The value of [meta] after line 85. *)
Definition caught_metadata (parsedPdf : PDFDocumentProxy) : option Meta :=
  match getMetadata parsedPdf with
  | inr m => Some m
  | inl _ => None
  end.

(** A document with its [info] and [metadata] fields absent. *)
Definition forget_metadata (d : Document) : Document := {|
  pageContent := pageContent d;
  doc_metadata := {|
    pdf := {|
      version := version (pdf (doc_metadata d));
      info := Js.Undefined;
      metadata := Js.Undefined;
      totalPages := totalPages (pdf (doc_metadata d))
    |};
    loc := loc (doc_metadata d)
  |}
|}.

Definition is_insertion (a : Action) : bool :=
  match a with CallAddDocuments _ => true | _ => false end.

(** The two calls the page loop makes for page [i] (lines 90-91). *)
Definition page_reads (i : nat) : list Action :=
  [CallGetPage i; CallGetTextContent i].

(** Page [i] can be read and has at least one text item. *)
Definition has_text (parsedPdf : PDFDocumentProxy) (i : nat) : bool :=
  match page_items parsedPdf i with
  | Some (_ :: _) => true
  | _ => false
  end.

Definition page_number (d : Document) : nat :=
  pageNumber (loc (doc_metadata d)).

(** The string carried by an outbound message. *)
Definition payload_text (m : OutMessage) : string :=
  match data m with
  | Text s => s
  | Docs _ => ""
  end.


(** One block of [formatDocs] (line 57). *)
Definition doc_block (doc : Document) (i : nat) : string :=
  "<doc id='" ++ Js.of_nat i ++ "'>" ++ Js.to_string (pageContent doc) ++ "</doc>".

(** The context string of a list of documents: their blocks, numbered
    from [i], one per line. *)
Fixpoint numbered_blocks (i : nat) (docs : list Document) : string :=
  match docs with
  | [] => ""
  | [doc] => doc_block doc i
  | doc :: rest => doc_block doc i ++ Js.newline ++ numbered_blocks (S i) rest
  end.

(* ================================================================== *)
(** ** A window splitter *)
(* ================================================================== *)

Module WindowSplitter.

(** The worker's splitter is the splitting library's
    [RecursiveCharacterTextSplitter], which is not among the sources and
    stays a service.  The demo world below needs some splitter: this one
    cuts a window of [chunkSize] characters, then starts the next one
    [chunkOverlap] characters before the end of the previous one.
    Nothing is proved of the library's splitter through it. *)
Fixpoint windows (fuel chunkSize chunkOverlap : nat) (text : list ascii)
    : list (list ascii) :=
  match fuel with
  | O => [text]
  | S fuel' =>
      if Nat.leb (length text) chunkSize then [text]
      else firstn chunkSize text
             :: windows fuel' chunkSize chunkOverlap
                  (skipn (chunkSize - chunkOverlap) text)
  end.

Definition splitText (chunkSize chunkOverlap : nat) (text : string) : list string :=
  map string_of_list_ascii
    (windows (String.length text) chunkSize chunkOverlap (list_ascii_of_string text)).

(** The chunks of one document keep its metadata; a document without
    content gives none. *)
Definition chunks_of (chunkSize chunkOverlap : nat) (document : Document) : list Document :=
  match pageContent document with
  | Some text =>
      map (fun chunk => new_Document chunk (doc_metadata document))
          (splitText chunkSize chunkOverlap text)
  | None => []
  end.

Definition splitDocuments (chunkSize chunkOverlap : nat) (documents : list Document)
    : Js.error + list Document :=
  inr (flat_map (chunks_of chunkSize chunkOverlap) documents).

End WindowSplitter.

(* ================================================================== *)
(** ** A concrete world, for running the worker *)
(* ================================================================== *)

Module Demo.

Definition item (s : string) : TextItem := {| str := s |}.

Definition page (texts : list string) : Js.error + PDFPageProxy :=
  inr {| getTextContent := inr {| items := map item texts |} |}.

(** Three pages; the second has no text. *)
Definition pages (i : nat) : Js.error + PDFPageProxy :=
  match i with
  | 1 => page ["Title"; "first page"]
  | 2 => page []
  | 3 => page ["third page"]
  | _ => inl (Js.Rejected "Invalid page request")
  end.

Definition document_meta : Meta :=
  {| meta_info := Js.Object [("Title", Js.Str "demo")];
     meta_metadata := Js.Null |}.

Definition parsed (m : Js.error + Meta) : PDFDocumentProxy :=
  {| numPages := 3; getMetadata := m; getPage := pages |}.

(** A world in which every service answers.  [bytes] containing
    ["nometa"] stand for a file whose metadata cannot be read. *)
#[local] Instance world : Externals := {|
  Voy := list Document;
  JSON_stringify := fun _ => inr "{}";
  atob := fun encoded => inr encoded;
  pdf_version := "1.10.100";
  pdf_getDocument := fun bytes =>
    if String.eqb bytes "nometa"
    then inr (parsed (inl (Js.Rejected "getMetadata")))
    else inr (parsed (inr document_meta));
  splitDocuments := WindowSplitter.splitDocuments;
  voy_addDocuments := fun v docs => ((v ++ docs)%list, None);
  voy_similaritySearch := fun v _ => inr (firstn 4 v);
  ollama_invoke := fun _ => inr (AIMessage "What is on the first page?");
  ollama_stream := fun _ => {| fragments := ["Ti"; ""; "tle"]; failure := None |}
|}.

Definition ingest_event : EventData :=
  {| data_pdf := Js.Str "data:application/pdf;base64,AAAA"; data_messages := None |}.

Definition first_question : list ChatWindowMessage :=
  [{| role := human; content := "What is the title?" |}].

Definition follow_up : list ChatWindowMessage :=
  [{| role := human; content := "What is the title?" |};
   {| role := ai; content := "Title" |};
   {| role := human; content := "And on page one?" |}].

Definition query_event (ms : list ChatWindowMessage) : EventData :=
  {| data_pdf := Js.Undefined; data_messages := Some ms |}.

(** The index before any ingest. *)
Definition empty_index : Voy := [].



(** A file whose metadata cannot be read. *)
Definition nometa_url : string := "data:application/pdf;base64,nometa".

(** The documents of the two pages that have text. *)
Definition page_documents : list Document :=
  [page_document (parsed (inr document_meta)) (Some document_meta) 1
     ("Title" ++ Js.newline ++ "first page");
   page_document (parsed (inr document_meta)) (Some document_meta) 3 "third page"].

(** The prompt of the answer to [first_question] over an empty index. *)
Definition first_prompt : PromptValue :=
  response_prompt
    (response_input [] {| role := human; content := "What is the title?" |} "").

(** A world in which the model endpoint and the embedder are down, and
    files report one page more than they have. *)
Definition offline_error : Js.error := Js.Rejected "fetch failed".

Definition four_pages : PDFDocumentProxy :=
  {| numPages := 4; getMetadata := inr document_meta; getPage := pages |}.

Definition offline : Externals := {|
  Voy := list Document;
  JSON_stringify := fun _ => inr "{}";
  atob := fun encoded => inr encoded;
  pdf_version := "1.10.100";
  pdf_getDocument := fun bytes =>
    if String.eqb bytes "AAAA" then inr (parsed (inr document_meta))
    else inr four_pages;
  splitDocuments := fun _ _ documents => inr documents;
  voy_addDocuments := fun v _ => (v, Some offline_error);
  voy_similaritySearch := fun v _ => inr v;
  ollama_invoke := fun _ => inl offline_error;
  ollama_stream := fun _ => {| fragments := ["par"; "tial"]; failure := Some offline_error |}
|}.





(** The index once the file has been ingested. *)
Definition loaded_index : @Voy world := page_documents.

(** The prompt of the answer to [follow_up] once the file has been
    ingested, written out. *)
Definition informed_prompt : PromptValue :=
  ChatPromptValue
    [SystemMessage
       (system_text
          ("<doc id='0'>Title" ++ Js.newline ++ "first page</doc>" ++ Js.newline
             ++ "<doc id='1'>third page</doc>"));
     HumanMessage "What is the title?";
     AIMessage "Title";
     HumanMessage "And on page one?"].

End Demo.

(* ================================================================== *)
(** ** Running the monad *)
(* ================================================================== *)

Section MonadFacts.

Context {E : Externals}.

Lemma bind_emit {B : Type} (a : Action) (k : unit -> Worker B) (v : Voy) :
  bind (emit a) k v
  = mkOutcome (a :: trace (k tt v)) (index (k tt v)) (result (k tt v)).
Proof. reflexivity. Qed.

Lemma bind_ret {A B : Type} (a : A) (k : A -> Worker B) (v : Voy) :
  bind (ret a) k v
  = mkOutcome (trace (k a v)) (index (k a v)) (result (k a v)).
Proof. reflexivity. Qed.

Lemma bind_inr {A B : Type} (m : Worker A) (k : A -> Worker B) (v : Voy) (a : A) :
  result (m v) = inr a ->
  bind m k v
  = mkOutcome (trace (m v) ++ trace (k a (index (m v))))%list
              (index (k a (index (m v))))
              (result (k a (index (m v)))).
Proof. intros H. unfold bind. rewrite H. reflexivity. Qed.

Lemma bind_inl {A B : Type} (m : Worker A) (k : A -> Worker B) (v : Voy) (e : Js.error) :
  result (m v) = inl e ->
  bind m k v = mkOutcome (trace (m v)) (index (m v)) (inl e).
Proof. intros H. unfold bind. rewrite H. reflexivity. Qed.

Lemma await_run {A : Type} (r : Js.error + A) (v : Voy) :
  await r v = mkOutcome [] v r.
Proof. destruct r; reflexivity. Qed.

End MonadFacts.

(* ================================================================== *)
(** ** Array and string helpers *)
(* ================================================================== *)

Lemma index_last {A : Type} (history : list A) (m : A) :
  Js.index (history ++ [m])%list (Z.of_nat (length (history ++ [m])%list) - 1) = Some m.
Proof.
  unfold Js.index. rewrite length_app. simpl length.
  replace (Z.of_nat (length history + 1) - 1)%Z with (Z.of_nat (length history)) by lia.
  destruct (Z.ltb_spec (Z.of_nat (length history)) 0); [lia|].
  rewrite Nat2Z.id, nth_error_app2 by lia.
  rewrite Nat.sub_diag. reflexivity.
Qed.

Lemma slice_but_last {A : Type} (history : list A) (m : A) :
  Js.slice (history ++ [m])%list 0 (-1) = history.
Proof.
  unfold Js.slice, Js.relative. rewrite length_app. simpl length.
  destruct (Z.ltb_spec 0 0); [lia|].
  destruct (Z.ltb_spec (-1) 0); [|lia].
  replace (Z.to_nat (Z.min 0 (Z.of_nat (length history + 1)))) with 0 by lia.
  replace (Z.to_nat (Z.max (Z.of_nat (length history + 1) + -1) 0))
    with (length history) by lia.
  rewrite Nat.sub_0_r. simpl skipn.
  rewrite firstn_app, Nat.sub_diag, firstn_all. simpl. apply app_nil_r.
Qed.

Lemma append_empty (s : string) : s ++ "" = s.
Proof. induction s as [|c s IH]; simpl; [reflexivity | now rewrite IH]. Qed.

(* ================================================================== *)
(** ** The prompts *)
(* ================================================================== *)

Lemma format_rephrase (chat_history question : string) :
  Template.format REPHRASE_QUESTION_TEMPLATE
    [("question", question); ("chat_history", chat_history)]
  = Some (rephrase_text chat_history question).
Proof. vm_compute. reflexivity. Qed.

Lemma format_response (context : string) :
  Template.format RESPONSE_SYSTEM_TEMPLATE [("context", context)]
  = Some (system_text context).
Proof. vm_compute. reflexivity. Qed.

Lemma format_question (question : string) :
  Template.format "{question}" [("question", question)] = Some question.
Proof.
  unfold Template.format. simpl. rewrite append_empty. reflexivity.
Qed.

(* ================================================================== *)
(** ** The query flow, step by step *)
(* ================================================================== *)

Section QueryFacts.

Context {E : Externals}.

Lemma relay_run (chunks : list string) (v : Voy) :
  relay chunks v = mkOutcome (flat_map relayed chunks) v (inr tt).
Proof.
  induction chunks as [|chunk rest IH]; [reflexivity|].
  cbn [relay]. rewrite bind_emit.
  destruct chunk as [|c chunk]; cbn [Js.truthy Js.nonempty].
  - rewrite bind_ret, IH. reflexivity.
  - unfold postMessage. rewrite bind_emit, IH. reflexivity.
Qed.

Lemma for_await_run (s : Stream) (v : Voy) :
  for_await s v
  = mkOutcome
      (flat_map relayed (fragments s))
      v
      (match failure s with Some e => inl e | None => inr tt end).
Proof.
  unfold for_await.
  rewrite (bind_inr _ _ _ tt) by (rewrite relay_run; reflexivity).
  rewrite relay_run. cbn [trace index result].
  destruct (failure s); cbn; rewrite app_nil_r; reflexivity.
Qed.

Lemma responseChainPrompt_run (input : ResponseInput.t) (v : Voy) :
  responseChainPrompt input v = mkOutcome [] v (inr (response_prompt input)).
Proof.
  unfold responseChainPrompt, format_or_throw.
  rewrite format_response, format_question. reflexivity.
Qed.

Lemma responseChain_stream_run (input : ResponseInput.t) (v : Voy) :
  responseChain_stream input v
  = mkOutcome [CallModelStream (response_prompt input)] v
              (inr (ollama_stream (response_prompt input))).
Proof.
  unfold responseChain_stream, andThen.
  rewrite (bind_inr _ _ _ (response_prompt input))
    by (rewrite responseChainPrompt_run; reflexivity).
  rewrite responseChainPrompt_run. reflexivity.
Qed.

(** The retrieval chain without history: one search, for the question
    as it is. *)
Lemma retrieval_no_history (input : RetrievalInput.t) (v : Voy) :
  createRetrievalChain ollama vectorstore_asRetriever [] input v
  = mkOutcome
      [CallRetriever (RetrievalInput.question input)]
      v
      (match voy_similaritySearch v (RetrievalInput.question input) with
       | inl e => inl e
       | inr docs => inr (formatDocs docs)
       end).
Proof.
  unfold createRetrievalChain, andThen. cbn.
  unfold bind. cbn.
  destruct (voy_similaritySearch v (RetrievalInput.question input)); reflexivity.
Qed.

Lemma rephraseQuestionChainPrompt_run (input : RetrievalInput.t) (v : Voy) :
  rephraseQuestionChainPrompt input v
  = mkOutcome [] v
      (inr (StringPromptValue
              (rephrase_text (RetrievalInput.chat_history input)
                             (RetrievalInput.question input)))).
Proof.
  unfold rephraseQuestionChainPrompt, format_or_throw.
  rewrite format_rephrase. reflexivity.
Qed.

Lemma invoke_run (prompt : PromptValue) (v : Voy) :
  invoke ollama prompt v = mkOutcome [CallModelInvoke prompt] v (ollama_invoke prompt).
Proof. cbn [invoke ollama]. rewrite bind_emit, await_run. reflexivity. Qed.

Lemma retriever_run (query : string) (v : Voy) :
  getRelevantDocuments vectorstore_asRetriever query v
  = mkOutcome [CallRetriever query] v (voy_similaritySearch v query).
Proof.
  cbn [getRelevantDocuments vectorstore_asRetriever].
  rewrite bind_emit. unfold bind, get_index. cbn [result index trace].
  rewrite await_run. reflexivity.
Qed.

Lemma search_and_format (query : string) (v : Voy) :
  bind (getRelevantDocuments vectorstore_asRetriever query)
       (fun docs => ret (formatDocs docs)) v
  = mkOutcome [CallRetriever query] v
      (match voy_similaritySearch v query with
       | inl e => inl e
       | inr docs => inr (formatDocs docs)
       end).
Proof.
  unfold bind. rewrite retriever_run. cbn [result index trace].
  destruct (voy_similaritySearch v query); reflexivity.
Qed.

(** The retrieval chain with history: one model call with the
    rephrasing prompt, then one search for the model's answer. *)
Lemma retrieval_with_history (m : ChatWindowMessage) (history : list ChatWindowMessage)
    (input : RetrievalInput.t) (v : Voy) :
  let prompt :=
    StringPromptValue
      (rephrase_text (RetrievalInput.chat_history input) (RetrievalInput.question input)) in
  createRetrievalChain ollama vectorstore_asRetriever (m :: history) input v
  = match ollama_invoke prompt with
    | inl e => mkOutcome [CallModelInvoke prompt] v (inl e)
    | inr answer =>
        mkOutcome
          [CallModelInvoke prompt; CallRetriever (message_text answer)]
          v
          (match voy_similaritySearch v (message_text answer) with
           | inl e => inl e
           | inr docs => inr (formatDocs docs)
           end)
    end.
Proof.
  intros prompt.
  unfold createRetrievalChain.
  replace (Js.truthy (Js.Number (Z.of_nat (length (m :: history))))) with true
    by (cbn [Js.truthy length]; destruct (Z.eqb_spec (Z.of_nat (S (length history))) 0);
        [lia | reflexivity]).
  unfold andThen.
  rewrite (bind_inr _ _ _ prompt) by (rewrite rephraseQuestionChainPrompt_run; reflexivity).
  rewrite rephraseQuestionChainPrompt_run. cbn [trace index result app].
  clearbody prompt.
  destruct (ollama_invoke prompt) as [e|answer] eqn:Hinvoke.
  - rewrite (bind_inl _ _ _ e) by (rewrite invoke_run; exact Hinvoke).
    rewrite invoke_run. reflexivity.
  - rewrite (bind_inr _ _ _ answer) by (rewrite invoke_run; exact Hinvoke).
    rewrite invoke_run. cbn [trace index result].
    unfold StringOutputParser. rewrite bind_ret, search_and_format.
    reflexivity.
Qed.

Lemma retrieval_shape (history : list ChatWindowMessage) (input : RetrievalInput.t)
    (v : Voy) :
  let o := createRetrievalChain ollama vectorstore_asRetriever history input v in
  index o = v
  /\ forallb (fun a => is_model_invoke a || is_retrieval a) (trace o) = true.
Proof.
  destruct history as [|m history].
  - rewrite retrieval_no_history. split; reflexivity.
  - cbv zeta. rewrite retrieval_with_history.
    destruct (ollama_invoke _); split; reflexivity.
Qed.

(** [queryVectorStore] on a non-empty array, written out. *)
Lemma queryVectorStore_run (history : list ChatWindowMessage) (m : ChatWindowMessage)
    (v : Voy) :
  let o := createRetrievalChain ollama vectorstore_asRetriever history
             (retrieval_input history m) v in
  queryVectorStore (history ++ [m])%list v
  = match result o with
    | inl e => mkOutcome (trace o) v (inl e)
    | inr formattedDocs =>
        let prompt := response_prompt (response_input history m formattedDocs) in
        let s := ollama_stream prompt in
        mkOutcome
          (trace o
             ++ CallModelStream prompt
             :: flat_map relayed (fragments s)
             ++ match failure s with
                | Some _ => []
                | None => [PostMessage complete_message]
                end)%list
          v
          (match failure s with Some e => inl e | None => inr tt end)
    end.
Proof.
  intros o.
  unfold queryVectorStore. rewrite index_last, slice_but_last.
  fold (retrieval_input history m). fold o.
  destruct (retrieval_shape history (retrieval_input history m) v) as [Hindex _].
  fold o in Hindex.
  destruct (result o) as [e|formattedDocs] eqn:Hresult.
  - rewrite (bind_inl _ _ _ e) by exact Hresult.
    fold o. rewrite Hindex. reflexivity.
  - rewrite (bind_inr _ _ _ formattedDocs) by exact Hresult.
    fold o. rewrite Hindex.
    fold (response_input history m formattedDocs).
    set (input := response_input history m formattedDocs).
    rewrite (bind_inr _ _ _ (ollama_stream (response_prompt input)))
      by (rewrite responseChain_stream_run; reflexivity).
    rewrite responseChain_stream_run. cbn [trace index result].
    set (s := ollama_stream (response_prompt input)).
    destruct (failure s) as [e|] eqn:Hfailure.
    + rewrite (bind_inl _ _ _ e) by (rewrite for_await_run, Hfailure; reflexivity).
      rewrite for_await_run. cbn [trace index result app].
      rewrite app_nil_r. reflexivity.
    + rewrite (bind_inr _ _ _ tt) by (rewrite for_await_run, Hfailure; reflexivity).
      rewrite for_await_run. reflexivity.
Qed.

(** The handler around either flow. *)
Lemma onmessage_throws (event_data : EventData) (v : Voy) (e : Js.error) :
  stringify_data event_data = inl e ->
  onmessage event_data v = mkOutcome [] v (inl e).
Proof. intros H. unfold onmessage. rewrite H. reflexivity. Qed.

Lemma received_when_serialised (event_data : EventData) (json : string) :
  stringify_data event_data = inr json ->
  received_message event_data = {| type := "log"; data := Text ("Received: " ++ json) |}.
Proof. intros H. unfold received_message. rewrite H. reflexivity. Qed.

Lemma onmessage_run (event_data : EventData) (v : Voy) (json : string) :
  stringify_data event_data = inr json ->
  let flow :=
    if Js.truthy (data_pdf event_data)
    then embedPDF_any (data_pdf event_data)
    else queryVectorStore_any (data_messages event_data) in
  onmessage event_data v
  = mkOutcome
      (PostMessage (received_message event_data)
         :: trace (flow v)
         ++ match result (flow v) with
            | inl _ => []
            | inr _ => [PostMessage complete_message]
            end)%list
      (index (flow v))
      (result (flow v) : Js.error + unit).
Proof.
  intros Hjson flow. rewrite (received_when_serialised _ _ Hjson).
  unfold onmessage, postMessage. rewrite Hjson.
  cbn [await]. rewrite bind_ret, bind_emit.
  fold flow. unfold bind.
  destruct (result (flow v)) as [e|[]]; cbn; [rewrite app_nil_r|]; reflexivity.
Qed.

(** A handler that did not fail serialised the message. *)
Lemma serialised_when_ok (event_data : EventData) (v : Voy) :
  result (onmessage event_data v) = inr tt ->
  exists json, stringify_data event_data = inr json.
Proof.
  destruct (stringify_data event_data) as [e|json] eqn:H; [|eexists; reflexivity].
  rewrite (onmessage_throws _ _ _ H). discriminate.
Qed.

Lemma posted_app (t1 t2 : list Action) :
  posted (t1 ++ t2) = (posted t1 ++ posted t2)%list.
Proof. apply flat_map_app. Qed.

Lemma posted_relayed (chunks : list string) :
  posted (flat_map relayed chunks) = map chunk_message (filter Js.nonempty chunks).
Proof.
  induction chunks as [|chunk rest IH]; [reflexivity|].
  cbn [flat_map]. rewrite posted_app, IH.
  destruct chunk; reflexivity.
Qed.

Lemma posted_none (t : list Action) :
  forallb (fun a => negb (is_post a)) t = true -> posted t = [].
Proof.
  induction t as [|a t IH]; [reflexivity|].
  cbn [forallb]. intros H. apply andb_prop in H. destruct H as [Ha Ht].
  destruct a; try discriminate; cbn; auto.
Qed.

Lemma forallb_weaken {A : Type} (p q : A -> bool) (l : list A) :
  (forall a, p a = true -> q a = true) ->
  forallb p l = true -> forallb q l = true.
Proof.
  intros Hpq. rewrite !forallb_forall. auto.
Qed.

End QueryFacts.

(* ================================================================== *)
(** ** The query flow: what the caller and the services see *)
(* ================================================================== *)

Section QueryClaims.

Context {E : Externals}.

Lemma holds_of_member {A : Type} (p : A -> bool) (l : list A) (a : A) :
  forallb p l = true -> In a l -> p a = true.
Proof. intros H Hin. rewrite forallb_forall in H. auto. Qed.

Lemma of_type_chunks (chunks : list string) :
  of_type "chunk" (map chunk_message chunks) = map chunk_message chunks.
Proof.
  induction chunks as [|c rest IH]; [reflexivity|].
  cbn [map of_type filter chunk_message type]. cbn [String.eqb Ascii.eqb Bool.eqb].
  fold (of_type "chunk" (map chunk_message rest)). rewrite IH. reflexivity.
Qed.

Lemma of_type_app (ty : string) (l1 l2 : list OutMessage) :
  of_type ty (l1 ++ l2) = (of_type ty l1 ++ of_type ty l2)%list.
Proof. apply filter_app. Qed.

Lemma retrieval_posts_nothing (history : list ChatWindowMessage)
    (input : RetrievalInput.t) (v : Voy) :
  posted (trace (createRetrievalChain ollama vectorstore_asRetriever history input v)) = [].
Proof.
  apply posted_none.
  destruct (retrieval_shape history input v) as [_ H].
  revert H. apply forallb_weaken. intros a. destruct a; cbn; congruence.
Qed.

Lemma relayed_no_calls (chunks : list string) :
  forallb (fun a => match a with
                    | StreamYield _ | PostMessage _ => true
                    | _ => false
                    end) (flat_map relayed chunks) = true.
Proof.
  induction chunks as [|c rest IH]; [reflexivity|].
  cbn [flat_map]. rewrite forallb_app, IH.
  destruct c; reflexivity.
Qed.

(** C9: [queryVectorStore] reads [messages[messages.length - 1]] with
    no guard.  For the empty array the index is [-1], the read yields
    [undefined] and taking [.content] of it throws: the flow stops with
    a TypeError before any call to a service, and the handler posts
    nothing after its first log message (no [complete]); when the
    message cannot even be serialised for that log message, the handler
    has failed before and posts nothing. *)
Theorem C9_empty_messages_cannot_proceed (event_data : EventData) (v : Voy) :
  Js.truthy (data_pdf event_data) = false ->
  data_messages event_data = Some [] ->
  Js.index (@nil ChatWindowMessage) (Z.of_nat (length (@nil ChatWindowMessage)) - 1) = None
  /\ queryVectorStore [] v
     = mkOutcome [] v
         (inl (Js.TypeError "Cannot read properties of undefined (reading 'content')"))
  /\ onmessage event_data v
     = match stringify_data event_data with
       | inl e => mkOutcome [] v (inl e)
       | inr _ =>
           mkOutcome [PostMessage (received_message event_data)] v
             (inl (Js.TypeError
                     "Cannot read properties of undefined (reading 'content')"))
       end.
Proof.
  intros Hpdf Hmessages.
  split; [reflexivity|]. split; [reflexivity|].
  destruct (stringify_data event_data) as [e|json] eqn:Hjson.
  - apply onmessage_throws. exact Hjson.
  - rewrite (onmessage_run _ _ _ Hjson), Hpdf, Hmessages. reflexivity.
Qed.

(** C2: with an empty history (the array holds the question only) the
    first thing the flow does is search the index for the last
    message's text exactly as received; the model is never invoked for
    a rephrasing, and there is no other search. *)
Theorem C2_empty_history_raw_question (m : ChatWindowMessage) (v : Voy) :
  Js.slice [m] 0 (-1) = []
  /\ exists rest,
       trace (queryVectorStore [m] v) = CallRetriever (content m) :: rest
       /\ forallb (fun a => negb (is_model_invoke a) && negb (is_retrieval a)) rest = true.
Proof.
  split; [reflexivity|].
  change [m] with ([] ++ [m])%list. rewrite queryVectorStore_run.
  rewrite retrieval_no_history. cbn [result trace RetrievalInput.question retrieval_input].
  destruct (voy_similaritySearch v (content m)) as [e|docs].
  - exists []. split; reflexivity.
  - cbn [trace app]. eexists. split; [reflexivity|].
    cbn [forallb is_model_invoke is_retrieval negb andb].
    rewrite forallb_app. apply andb_true_intro. split.
    + generalize (relayed_no_calls
        (fragments (ollama_stream (response_prompt (response_input [] m (formatDocs docs)))))).
      apply forallb_weaken. intros a. destruct a; cbn; congruence.
    + destruct (failure _); reflexivity.
Qed.

Lemma history_line_prefixed (message : ChatWindowMessage) :
  history_line message = role_prefixed_line message.
Proof. unfold history_line, role_prefixed_line. destruct (role message); reflexivity. Qed.

(** C3: with a non-empty history the flow starts with one model call
    whose prompt is the rephrasing text around the history, one line
    ["human: ..."] or ["ai: ..."] per message, and the raw question.  If
    that call fails nothing else happens; otherwise the next action is
    the search of the index for the text of the model's answer, and the
    rest of the run has neither another such model call nor another
    search. *)
Theorem C3_history_rephrased_once (h : ChatWindowMessage) (hs : list ChatWindowMessage)
    (m : ChatWindowMessage) (v : Voy) :
  let history := h :: hs in
  let prompt :=
    StringPromptValue
      (rephrase_text (Js.join Js.newline (map role_prefixed_line history)) (content m)) in
  Js.slice (history ++ [m])%list 0 (-1) = history
  /\ match ollama_invoke prompt with
     | inl e =>
         trace (queryVectorStore (history ++ [m])%list v) = [CallModelInvoke prompt]
     | inr answer =>
         exists rest,
           trace (queryVectorStore (history ++ [m])%list v)
           = CallModelInvoke prompt :: CallRetriever (answer_text answer) :: rest
           /\ forallb (fun a => negb (is_model_invoke a) && negb (is_retrieval a)) rest
              = true
     end.
Proof.
  intros history prompt. subst history prompt.
  split; [apply slice_but_last|].
  rewrite <- (map_ext _ _ history_line_prefixed (h :: hs)).
  set (prompt := StringPromptValue _).
  pose proof (retrieval_with_history h hs (retrieval_input (h :: hs) m) v) as Hchain.
  cbv zeta in Hchain.
  cbn [RetrievalInput.question RetrievalInput.chat_history retrieval_input] in Hchain.
  fold prompt in Hchain. clearbody prompt.
  rewrite queryVectorStore_run. cbv zeta. rewrite Hchain. clear Hchain.
  destruct (ollama_invoke prompt) as [e|answer]; [reflexivity|].
  change (answer_text answer) with (message_text answer).
  cbn [result trace].
  destruct (voy_similaritySearch v (message_text answer)) as [e|docs].
  - exists []. split; reflexivity.
  - cbn [trace app]. eexists. split; [reflexivity|].
    cbn [forallb is_model_invoke is_retrieval negb andb].
    rewrite forallb_app. apply andb_true_intro. split.
    + generalize (relayed_no_calls
        (fragments (ollama_stream
           (response_prompt (response_input (h :: hs) m (formatDocs docs)))))).
      apply forallb_weaken. intros a. destruct a; cbn; congruence.
    + destruct (failure _); reflexivity.
Qed.

Lemma of_type_complete_chunks (chunks : list string) :
  of_type "complete" (map chunk_message chunks) = [].
Proof. induction chunks as [|c rest IH]; [reflexivity | exact IH]. Qed.

(** A query message that runs to its end, opened up. *)
Lemma successful_query (event_data : EventData) (v : Voy) :
  Js.truthy (data_pdf event_data) = false ->
  result (onmessage event_data v) = inr tt ->
  exists history m formattedDocs,
    data_messages event_data = Some (history ++ [m])%list
    /\ let prompt := response_prompt (response_input history m formattedDocs) in
       failure (ollama_stream prompt) = None
       /\ trace (onmessage event_data v)
          = (PostMessage (received_message event_data)
               :: (trace (createRetrievalChain ollama vectorstore_asRetriever history
                            (retrieval_input history m) v)
                     ++ CallModelStream prompt
                     :: flat_map relayed (fragments (ollama_stream prompt))
                     ++ [PostMessage complete_message])
               ++ [PostMessage complete_message])%list.
Proof.
  intros Hpdf Hok.
  destruct (serialised_when_ok _ _ Hok) as [json Hjson].
  rewrite (onmessage_run _ _ _ Hjson) in *. cbv zeta in *. rewrite Hpdf in *.
  cbn [result trace] in *.
  destruct (data_messages event_data) as [messages|]; [|discriminate].
  cbn [queryVectorStore_any] in *.
  destruct (exists_last (l := messages)) as [history [m ->]].
  { intros ->. discriminate. }
  exists history, m.
  rewrite queryVectorStore_run in *. cbv zeta in *.
  destruct (result (createRetrievalChain ollama vectorstore_asRetriever history
                      (retrieval_input history m) v)) as [e|formattedDocs];
    [discriminate|].
  exists formattedDocs. split; [reflexivity|].
  cbn [result trace] in *.
  destruct (failure _); [discriminate|].
  split; reflexivity.
Qed.

(** C1: a query message that runs to its end posts the handler's log
    message, then one [chunk] per non-empty fragment of the model
    stream (none when the stream is empty), then [complete] twice: once
    at the end of [queryVectorStore] (lines 171-174) and once more at
    the end of the handler (lines 190-193). *)
Theorem C1_query_posts_complete_twice (event_data : EventData) (v : Voy) :
  Js.truthy (data_pdf event_data) = false ->
  result (onmessage event_data v) = inr tt ->
  exists prompt,
    In (CallModelStream prompt) (trace (onmessage event_data v))
    /\ posted (trace (onmessage event_data v))
       = (received_message event_data
            :: map chunk_message (filter Js.nonempty (fragments (ollama_stream prompt)))
            ++ [complete_message; complete_message])%list
    /\ of_type "complete" (posted (trace (onmessage event_data v)))
       = [complete_message; complete_message].
Proof.
  intros Hpdf Hok.
  destruct (successful_query event_data v Hpdf Hok)
    as (history & m & formattedDocs & _ & _ & Htrace).
  cbv zeta in Htrace.
  set (prompt := response_prompt (response_input history m formattedDocs)) in *.
  exists prompt. rewrite Htrace.
  split.
  { right. apply in_or_app. left. apply in_or_app. right. left. reflexivity. }
  assert (Hposted :
    posted (PostMessage (received_message event_data)
              :: (trace (createRetrievalChain ollama vectorstore_asRetriever history
                           (retrieval_input history m) v)
                    ++ CallModelStream prompt
                    :: flat_map relayed (fragments (ollama_stream prompt))
                    ++ [PostMessage complete_message])
              ++ [PostMessage complete_message])
    = (received_message event_data
         :: map chunk_message (filter Js.nonempty (fragments (ollama_stream prompt)))
         ++ [complete_message; complete_message])%list).
  { change (posted (PostMessage ?x :: ?t)) with (x :: posted t).
    rewrite !posted_app, retrieval_posts_nothing.
    change (posted (CallModelStream prompt :: ?t)) with (posted t).
    rewrite posted_app, posted_relayed. cbn [app posted flat_map].
    rewrite <- app_assoc. reflexivity. }
  rewrite Hposted. split; [reflexivity|].
  change (of_type "complete" (received_message event_data :: ?t))
    with (of_type "complete" t).
  rewrite of_type_app, of_type_complete_chunks. reflexivity.
Qed.

(** C4: once the model stream is opened, the trace continues with the
    fragments in the order the stream yields them, each non-empty one
    followed at once by its own [chunk] message and each empty one by
    nothing; the [chunk] messages of the whole run are the non-empty
    fragments, one message each, in stream order. *)
Theorem C4_fragments_relayed_in_order (messages : list ChatWindowMessage) (v : Voy)
    (prompt : PromptValue) :
  In (CallModelStream prompt) (trace (queryVectorStore messages v)) ->
  let yielded := fragments (ollama_stream prompt) in
  (exists before after,
     trace (queryVectorStore messages v)
     = (before ++ CallModelStream prompt :: flat_map relayed yielded ++ after)%list
     /\ forallb (fun a => negb (is_post a) && negb (is_stream_action a)) before = true
     /\ (after = [] \/ after = [PostMessage complete_message]))
  /\ of_type "chunk" (posted (trace (queryVectorStore messages v)))
     = map chunk_message (filter Js.nonempty yielded).
Proof.
  intros Hin yielded.
  destruct messages as [|m0 ms] using rev_ind; [contradiction|]. clear IHms.
  rename m0 into m, ms into history.
  rewrite queryVectorStore_run in *. cbv zeta in *.
  destruct (retrieval_shape history (retrieval_input history m) v) as [_ Hshape].
  cbv zeta in Hshape.
  set (o := createRetrievalChain ollama vectorstore_asRetriever history
              (retrieval_input history m) v) in *.
  assert (Hquiet : forallb (fun a => negb (is_post a) && negb (is_stream_action a))
                           (trace o) = true).
  { revert Hshape. apply forallb_weaken. intros a. destruct a; cbn; congruence. }
  destruct (result o) as [e|formattedDocs]; cbn [trace] in *.
  { apply (holds_of_member _ _ _ Hquiet) in Hin. discriminate. }
  set (p := response_prompt (response_input history m formattedDocs)) in *.
  assert (Hp : prompt = p).
  { apply in_app_or in Hin. destruct Hin as [Hin|[Hin|Hin]].
    - apply (holds_of_member _ _ _ Hquiet) in Hin. discriminate.
    - congruence.
    - apply in_app_or in Hin. destruct Hin as [Hin|Hin].
      + apply (holds_of_member _ _ _ (relayed_no_calls _)) in Hin. discriminate.
      + destruct (failure (ollama_stream p)); [contradiction|].
        destruct Hin as [Hin|[]]. discriminate. }
  subst prompt. fold yielded. split.
  - exists (trace o). eexists. split; [reflexivity|]. split; [exact Hquiet|].
    destruct (failure (ollama_stream p)); auto.
  - rewrite posted_app, (posted_none (trace o)).
    2:{ revert Hquiet. apply forallb_weaken. intros a Ha.
        apply andb_prop in Ha. tauto. }
    change (posted (CallModelStream p :: ?t)) with (posted t).
    rewrite posted_app, posted_relayed, !of_type_app, of_type_chunks.
    destruct (failure (ollama_stream p)); cbn; apply app_nil_r.
Qed.

End QueryClaims.

(* ================================================================== *)
(** ** The ingest flow, step by step *)
(* ================================================================== *)

Section IngestFacts.

Context {E : Externals}.

Lemma call_run {A : Type} (a : Action) (r : Js.error + A) (v : Voy) :
  bind (emit a) (fun _ => await r) v = mkOutcome [a] v r.
Proof. rewrite bind_emit, await_run. reflexivity. Qed.

(** One turn of the page loop. *)
Lemma pages_loop_step (parsedPdf : PDFDocumentProxy) (meta : option Meta)
    (todo i : nat) (documents : list Document) (v : Voy) :
  pages_loop parsedPdf meta (S todo) i documents v
  = match getPage parsedPdf i with
    | inl e => mkOutcome [CallGetPage i] v (inl e)
    | inr page =>
        match getTextContent page with
        | inl e => mkOutcome [CallGetPage i; CallGetTextContent i] v (inl e)
        | inr content =>
            let o :=
              pages_loop parsedPdf meta todo (i + 1)
                (if Nat.eqb (length (items content)) 0 then documents
                 else (documents
                         ++ [page_document parsedPdf meta i
                               (Js.join Js.newline (map str (items content)))])%list)
                v in
            mkOutcome (CallGetPage i :: CallGetTextContent i :: trace o)
                      (index o) (result o)
        end
    end.
Proof.
  cbn [pages_loop]. unfold call_getPage, call_getTextContent.
  destruct (getPage parsedPdf i) as [e|page] eqn:Hpage.
  - rewrite (bind_inl _ _ _ e) by (rewrite call_run; reflexivity).
    rewrite call_run. reflexivity.
  - rewrite (bind_inr _ _ _ page) by (rewrite call_run; reflexivity).
    rewrite call_run. cbn [trace index result].
    destruct (getTextContent page) as [e|content] eqn:Hcontent.
    + rewrite (bind_inl _ _ _ e) by (rewrite call_run; reflexivity).
      rewrite call_run. reflexivity.
    + rewrite (bind_inr _ _ _ content) by (rewrite call_run; reflexivity).
      rewrite call_run. cbn [trace index result].
      destruct (Nat.eqb (length (items content)) 0); reflexivity.
Qed.

(** The loop only reads pages and leaves the index alone. *)
Lemma pages_loop_shape (parsedPdf : PDFDocumentProxy) (meta : option Meta)
    (todo i : nat) (documents : list Document) (v : Voy) :
  index (pages_loop parsedPdf meta todo i documents v) = v
  /\ forallb is_page_action (trace (pages_loop parsedPdf meta todo i documents v)) = true.
Proof.
  revert i documents.
  induction todo as [|todo IH]; intros i documents; [split; reflexivity|].
  rewrite pages_loop_step.
  destruct (getPage parsedPdf i) as [e|page]; [split; reflexivity|].
  destruct (getTextContent page) as [e|content]; [split; reflexivity|].
  cbv zeta. cbn [trace index forallb is_page_action andb]. apply IH.
Qed.

(** [embedPDF], written out. *)
Lemma embedPDF_run (pdfDataUrl : string) (v : Voy) :
  let encoded := encoded_part pdfDataUrl in
  embedPDF pdfDataUrl v
  = match atob encoded with
    | inl e => mkOutcome [CallAtob encoded] v (inl e)
    | inr bytes =>
        match pdf_getDocument bytes with
        | inl e => mkOutcome [CallAtob encoded; CallGetDocument bytes] v (inl e)
        | inr parsedPdf =>
            let o := pages_loop parsedPdf (caught_metadata parsedPdf)
                       (numPages parsedPdf) 1 [] v in
            let read :=
              (CallAtob encoded :: CallGetDocument bytes :: CallGetMetadata :: trace o) in
            match result o with
            | inl e => mkOutcome read v (inl e)
            | inr documents =>
                match splitDocuments 500 50 documents with
                | inl e =>
                    mkOutcome (read ++ [CallSplitDocuments 500 50 documents])%list
                              v (inl e)
                | inr docs =>
                    mkOutcome
                      (read ++ [CallSplitDocuments 500 50 documents;
                                PostMessage {| type := "log"; data := Docs docs |};
                                CallAddDocuments docs])%list
                      (fst (voy_addDocuments v docs))
                      (match snd (voy_addDocuments v docs) with
                       | Some e => inl e
                       | None => inr tt
                       end)
                end
            end
        end
    end.
Proof.
  intros encoded. unfold embedPDF. fold (encoded_part pdfDataUrl). fold encoded.
  unfold call_atob, call_getDocument.
  destruct (atob encoded) as [e|bytes] eqn:Hatob.
  { rewrite (bind_inl _ _ _ e) by (rewrite call_run; reflexivity).
    rewrite call_run. reflexivity. }
  rewrite (bind_inr _ _ _ bytes) by (rewrite call_run; reflexivity).
  rewrite call_run. cbn [trace index result].
  destruct (pdf_getDocument bytes) as [e|parsedPdf] eqn:Hdoc.
  { rewrite (bind_inl _ _ _ e) by (rewrite call_run; reflexivity).
    rewrite call_run. reflexivity. }
  rewrite (bind_inr _ _ _ parsedPdf) by (rewrite call_run; reflexivity).
  rewrite call_run. cbn [trace index result].
  assert (Hmeta :
    catch (bind (call_getMetadata parsedPdf) (fun m => ret (Some m)))
          (fun _ => ret None) v
    = mkOutcome [CallGetMetadata] v (inr (caught_metadata parsedPdf))).
  { unfold catch, call_getMetadata, caught_metadata.
    destruct (getMetadata parsedPdf) as [e|m] eqn:Hm.
    - rewrite (bind_inl _ _ _ e) by (rewrite call_run; reflexivity).
      rewrite call_run. reflexivity.
    - rewrite (bind_inr _ _ _ m) by (rewrite call_run; reflexivity).
      rewrite call_run. reflexivity. }
  rewrite (bind_inr _ _ _ (caught_metadata parsedPdf)) by (rewrite Hmeta; reflexivity).
  rewrite Hmeta. cbn [trace index result].
  destruct (pages_loop_shape parsedPdf (caught_metadata parsedPdf)
              (numPages parsedPdf) 1 [] v) as [Hindex _].
  cbv zeta.
  destruct (result (pages_loop parsedPdf (caught_metadata parsedPdf)
                      (numPages parsedPdf) 1 [] v)) as [e|documents] eqn:Hloop.
  { rewrite (bind_inl _ _ _ e) by exact Hloop.
    cbn [trace index result app]. rewrite Hindex. reflexivity. }
  rewrite (bind_inr _ _ _ documents) by exact Hloop. rewrite Hindex.
  unfold call_splitDocuments.
  destruct (splitDocuments 500 50 documents) as [e|docs] eqn:Hsplit.
  { rewrite (bind_inl _ _ _ e) by (rewrite call_run; reflexivity).
    rewrite call_run. reflexivity. }
  rewrite (bind_inr _ _ _ docs) by (rewrite call_run; reflexivity).
  rewrite call_run. cbn [trace index result].
  unfold postMessage, vectorstore_addDocuments.
  rewrite !bind_emit. unfold bind, get_index, put_index. cbn [trace index result].
  destruct (voy_addDocuments v docs) as [v' [e|]]; cbn.
  - rewrite <- ?app_assoc. reflexivity.
  - rewrite <- ?app_assoc. reflexivity.
Qed.

Lemma filter_none {A : Type} (p : A -> bool) (l : list A) :
  (forall a, In a l -> p a = false) -> filter p l = [].
Proof.
  induction l as [|a l IH]; intros H; [reflexivity|].
  cbn [filter]. rewrite (H a (or_introl eq_refl)).
  apply IH. intros b Hb. apply H. right. exact Hb.
Qed.

Lemma page_items_read (parsedPdf : PDFDocumentProxy) (i : nat)
    (page : PDFPageProxy) (content : TextContent) :
  getPage parsedPdf i = inr page ->
  getTextContent page = inr content ->
  page_items parsedPdf i = Some (items content).
Proof. intros Hp Hc. unfold page_items. rewrite Hp, Hc. reflexivity. Qed.


(** The loop with [meta] absent does what it does with any [meta],
    except for the two fields taken from [meta]. *)
Lemma pages_loop_forget (parsedPdf : PDFDocumentProxy) (meta : option Meta)
    (todo : nat) :
  forall (i : nat) (documents : list Document) (v : Voy),
  trace (pages_loop parsedPdf None todo i (map forget_metadata documents) v)
  = trace (pages_loop parsedPdf meta todo i documents v)
  /\ result (pages_loop parsedPdf None todo i (map forget_metadata documents) v)
     = match result (pages_loop parsedPdf meta todo i documents v) with
       | inl e => inl e
       | inr documents' => inr (map forget_metadata documents')
       end.
Proof.
  induction todo as [|todo IH]; intros i documents v; [split; reflexivity|].
  rewrite !pages_loop_step.
  destruct (getPage parsedPdf i) as [e|page]; [split; reflexivity|].
  destruct (getTextContent page) as [e|content]; [split; reflexivity|].
  cbv zeta. cbn [trace result].
  destruct (Nat.eqb (length (items content)) 0).
  - destruct (IH (i + 1) documents v) as [Ht Hr]. rewrite Ht, Hr. split; reflexivity.
  - set (text := Js.join Js.newline (map str (items content))).
    destruct (IH (i + 1) (documents ++ [page_document parsedPdf meta i text])%list v)
      as [Ht Hr].
    rewrite map_app in Ht, Hr. cbn [map] in Ht, Hr.
    change (forget_metadata (page_document parsedPdf meta i text))
      with (page_document parsedPdf None i text) in Ht, Hr.
    rewrite Ht, Hr. split; reflexivity.
Qed.

(** A splitter call in the trace: everything before it went well. *)
Lemma ingest_reaches_split (pdfDataUrl : string) (v : Voy)
    (chunkSize chunkOverlap : nat) (documents : list Document) :
  In (CallSplitDocuments chunkSize chunkOverlap documents) (trace (embedPDF pdfDataUrl v)) ->
  exists bytes parsedPdf,
    atob (encoded_part pdfDataUrl) = inr bytes
    /\ pdf_getDocument bytes = inr parsedPdf
    /\ result (pages_loop parsedPdf (caught_metadata parsedPdf)
                 (numPages parsedPdf) 1 [] v) = inr documents
    /\ chunkSize = 500 /\ chunkOverlap = 50.
Proof.
  rewrite embedPDF_run. cbv zeta.
  destruct (atob (encoded_part pdfDataUrl)) as [e|bytes] eqn:Hatob.
  { cbn. intros [H|[]]. discriminate. }
  destruct (pdf_getDocument bytes) as [e|parsedPdf] eqn:Hdoc.
  { cbn. intros [H|[H|[]]]; discriminate. }
  destruct (pages_loop_shape parsedPdf (caught_metadata parsedPdf)
              (numPages parsedPdf) 1 [] v) as [_ Hpages].
  assert (Hnot : ~ In (CallSplitDocuments chunkSize chunkOverlap documents)
                   (trace (pages_loop parsedPdf (caught_metadata parsedPdf)
                             (numPages parsedPdf) 1 [] v))).
  { intros Hin. apply (holds_of_member _ _ _ Hpages) in Hin. discriminate. }
  destruct (result (pages_loop parsedPdf (caught_metadata parsedPdf)
                      (numPages parsedPdf) 1 [] v)) as [e|documents0] eqn:Hloop.
  { cbn. intros [H|[H|[H|H]]]; try discriminate. contradiction. }
  intros Hin. exists bytes, parsedPdf.
  assert (Hsplit : CallSplitDocuments 500 50 documents0
                   = CallSplitDocuments chunkSize chunkOverlap documents).
  { destruct (splitDocuments 500 50 documents0); cbn in Hin;
      destruct Hin as [H|[H|[H|H]]]; try discriminate;
      apply in_app_or in H; destruct H as [H|H]; try contradiction;
      cbn in H; repeat (destruct H as [H|H]; try discriminate; try exact H);
      contradiction. }
  injection Hsplit as <- <- <-.
  split; [reflexivity|]. split; [exact Hdoc|]. split; [exact Hloop|].
  split; reflexivity.
Qed.

(** An insertion in the trace: the splitter returned what is inserted. *)
Lemma ingest_reaches_insertion (pdfDataUrl : string) (v : Voy) (docs : list Document) :
  In (CallAddDocuments docs) (trace (embedPDF pdfDataUrl v)) ->
  exists documents,
    In (CallSplitDocuments 500 50 documents) (trace (embedPDF pdfDataUrl v))
    /\ splitDocuments 500 50 documents = inr docs.
Proof.
  rewrite embedPDF_run. cbv zeta.
  destruct (atob (encoded_part pdfDataUrl)) as [e|bytes].
  { cbn. intros [H|[]]. discriminate. }
  destruct (pdf_getDocument bytes) as [e|parsedPdf].
  { cbn. intros [H|[H|[]]]; discriminate. }
  destruct (pages_loop_shape parsedPdf (caught_metadata parsedPdf)
              (numPages parsedPdf) 1 [] v) as [_ Hpages].
  assert (Hnot : ~ In (CallAddDocuments docs)
                   (trace (pages_loop parsedPdf (caught_metadata parsedPdf)
                             (numPages parsedPdf) 1 [] v))).
  { intros Hin. apply (holds_of_member _ _ _ Hpages) in Hin. discriminate. }
  destruct (result (pages_loop parsedPdf (caught_metadata parsedPdf)
                      (numPages parsedPdf) 1 [] v)) as [e|documents].
  { cbn. intros [H|[H|[H|H]]]; try discriminate. contradiction. }
  intros Hin. exists documents.
  destruct (splitDocuments 500 50 documents) as [e|docs0]; cbn in Hin |- *;
    destruct Hin as [H|[H|[H|H]]]; try discriminate;
    apply in_app_or in H; destruct H as [H|H]; try contradiction;
    cbn in H; repeat (destruct H as [H|H]; try discriminate); try contradiction.
  injection H as <-. split; [|reflexivity].
  do 3 right. apply in_or_app. right. left. reflexivity.
Qed.

End IngestFacts.

(* ================================================================== *)
(** ** The ingest flow: what the caller and the services see *)
(* ================================================================== *)

Section IngestClaims.

Context {E : Externals}.

(** C5: an ingest message that runs to its end leaves, after the
    handler's first log message and the reads of the file (which post
    nothing and insert nothing): the splitter call, a [log] message
    whose payload is the list the splitter returned, the insertion of
    that same list into the index, and one [complete] message with
    ["OK"]; that [complete] is the only one. *)
Theorem C5_ingest_log_insert_complete (event_data : EventData) (v : Voy) :
  Js.truthy (data_pdf event_data) = true ->
  result (onmessage event_data v) = inr tt ->
  exists reading documents docs,
    trace (onmessage event_data v)
    = (PostMessage (received_message event_data)
         :: reading
         ++ [CallSplitDocuments 500 50 documents;
             PostMessage {| type := "log"; data := Docs docs |};
             CallAddDocuments docs;
             PostMessage {| type := "complete"; data := Text "OK" |}])%list
    /\ forallb (fun a => negb (is_post a) && negb (is_insertion a)) reading = true
    /\ splitDocuments 500 50 documents = inr docs
    /\ voy_addDocuments v docs = (index (onmessage event_data v), None)
    /\ of_type "complete" (posted (trace (onmessage event_data v)))
       = [{| type := "complete"; data := Text "OK" |}].
Proof.
  intros Hpdf Hok.
  destruct (serialised_when_ok _ _ Hok) as [json Hjson].
  rewrite (onmessage_run _ _ _ Hjson) in *. cbv zeta in *. rewrite Hpdf in *.
  cbn [trace index result] in *.
  destruct (data_pdf event_data) as [| | | | | |pdfDataUrl|]; try discriminate.
  cbn [embedPDF_any] in *.
  rewrite embedPDF_run in *. cbv zeta in *.
  destruct (atob (encoded_part pdfDataUrl)) as [e|bytes]; [discriminate|].
  destruct (pdf_getDocument bytes) as [e|parsedPdf]; [discriminate|].
  destruct (pages_loop_shape parsedPdf (caught_metadata parsedPdf)
              (numPages parsedPdf) 1 [] v) as [_ Hpages].
  set (o := pages_loop parsedPdf (caught_metadata parsedPdf) (numPages parsedPdf) 1 [] v)
    in *.
  destruct (result o) as [e|documents]; [discriminate|].
  destruct (splitDocuments 500 50 documents) as [e|docs] eqn:Hsplit; [discriminate|].
  cbn [trace index result] in *.
  destruct (voy_addDocuments v docs) as [v' [e|]] eqn:Hadd; [discriminate|].
  cbn [fst snd] in *.
  assert (Hquiet : forallb (fun a => negb (is_post a) && negb (is_insertion a))
                     (CallAtob (encoded_part pdfDataUrl) :: CallGetDocument bytes
                        :: CallGetMetadata :: trace o) = true).
  { cbn [forallb is_post is_insertion negb andb].
    revert Hpages. apply forallb_weaken. intros a. destruct a; cbn; congruence. }
  exists (CallAtob (encoded_part pdfDataUrl) :: CallGetDocument bytes
            :: CallGetMetadata :: trace o), documents, docs.
  split; [rewrite <- app_assoc; reflexivity|].
  split; [exact Hquiet|]. split; [exact Hsplit|]. split; [exact Hadd|].
  change (posted (PostMessage ?x :: ?t)) with (x :: posted t).
  rewrite !posted_app, (posted_none (_ :: _)).
  2:{ revert Hquiet. apply forallb_weaken. intros a Ha. apply andb_prop in Ha. tauto. }
  reflexivity.
Qed.



(** C8: when reading the metadata of a parsed file fails, the flow
    goes on.  The page loop makes the same calls and returns the same
    documents as it would with any metadata, except that their [info]
    and [metadata] fields are absent; its outcome alone decides what
    follows: a failed page read ends the flow, and otherwise the
    documents are split, logged and inserted. *)
Theorem C8_metadata_failure_absorbed (pdfDataUrl : string) (v : Voy)
    (bytes : string) (parsedPdf : PDFDocumentProxy) (e : Js.error) :
  atob (encoded_part pdfDataUrl) = inr bytes ->
  pdf_getDocument bytes = inr parsedPdf ->
  getMetadata parsedPdf = inl e ->
  let extraction := pages_loop parsedPdf None (numPages parsedPdf) 1 [] v in
  (forall meta,
     let with_meta := pages_loop parsedPdf meta (numPages parsedPdf) 1 [] v in
     trace extraction = trace with_meta
     /\ result extraction
        = match result with_meta with
          | inl e' => inl e'
          | inr documents => inr (map forget_metadata documents)
          end)
  /\ match result extraction with
     | inl e' =>
         embedPDF pdfDataUrl v
         = mkOutcome
             (CallAtob (encoded_part pdfDataUrl) :: CallGetDocument bytes
                :: CallGetMetadata :: trace extraction)
             v (inl e')
     | inr documents =>
         (forall d, In d documents ->
            info (pdf (doc_metadata d)) = Js.Undefined
            /\ metadata (pdf (doc_metadata d)) = Js.Undefined)
         /\ trace (embedPDF pdfDataUrl v)
            = (CallAtob (encoded_part pdfDataUrl) :: CallGetDocument bytes
                 :: CallGetMetadata :: trace extraction
                 ++ CallSplitDocuments 500 50 documents
                 :: match splitDocuments 500 50 documents with
                    | inl _ => []
                    | inr docs =>
                        [PostMessage {| type := "log"; data := Docs docs |};
                         CallAddDocuments docs]
                    end)%list
         /\ result (embedPDF pdfDataUrl v)
            = match splitDocuments 500 50 documents with
              | inl e' => inl e'
              | inr docs =>
                  match snd (voy_addDocuments v docs) with
                  | Some e' => inl e'
                  | None => inr tt
                  end
              end
     end.
Proof.
  intros Hatob Hdoc Hmeta extraction.
  split.
  - intros meta with_meta.
    exact (pages_loop_forget parsedPdf meta (numPages parsedPdf) 1 [] v).
  - rewrite embedPDF_run. cbv zeta. rewrite Hatob, Hdoc.
    unfold caught_metadata. rewrite Hmeta. fold extraction.
    destruct (result extraction) as [e'|documents] eqn:Hresult; [reflexivity|].
    split.
    + intros d Hd.
      destruct (pages_loop_forget parsedPdf None (numPages parsedPdf) 1 [] v) as [_ Hr].
      cbn [map] in Hr. fold extraction in Hr. rewrite Hresult in Hr.
      injection Hr as Hr. rewrite Hr in Hd. apply in_map_iff in Hd.
      destruct Hd as (d0 & <- & _). split; reflexivity.
    + destruct (splitDocuments 500 50 documents) as [e'|docs];
        cbn [trace result app]; split; reflexivity.
Qed.

End IngestClaims.

(* ================================================================== *)
(** ** Dispatch *)
(* ================================================================== *)

Section Dispatch.

Context {E : Externals}.





End Dispatch.

(* ================================================================== *)
(** ** The statements at work in the demo world *)
(* ================================================================== *)

Section Witnesses.

#[local] Existing Instance Demo.world.

Example splitText_small :
  WindowSplitter.splitText 5 2 "abcdefghijkl" = ["abcde"; "defgh"; "ghijk"; "jkl"].
Proof. reflexivity. Qed.

Example splitText_600 :
  map String.length
      (WindowSplitter.splitText 500 50 (string_of_list_ascii (repeat "a"%char 600)))
  = [500; 150].
Proof. vm_compute. reflexivity. Qed.

(** A follow-up question: the rephrasing call, then the search for the
    model's answer. *)
Example follow_up_starts :
  firstn 2 (trace (queryVectorStore Demo.follow_up Demo.empty_index))
  = [CallModelInvoke
       (StringPromptValue
          (rephrase_text
             ("human: What is the title?" ++ Js.newline ++ "ai: Title")
             "And on page one?"));
     CallRetriever "What is on the first page?"].
Proof. vm_compute. reflexivity. Qed.

(** The messages of a first question, as the caller receives them. *)
Example first_question_posts :
  posted (trace (onmessage (Demo.query_event Demo.first_question) Demo.empty_index))
  = [received_message (Demo.query_event Demo.first_question);
     chunk_message "Ti"; chunk_message "tle";
     complete_message; complete_message].
Proof. vm_compute. reflexivity. Qed.

Lemma C9_empty_messages_witness :
  onmessage (Demo.query_event []) Demo.empty_index
  = mkOutcome [PostMessage (received_message (Demo.query_event []))] Demo.empty_index
      (inl (Js.TypeError "Cannot read properties of undefined (reading 'content')")).
Proof.
  apply (C9_empty_messages_cannot_proceed (Demo.query_event []) Demo.empty_index);
    reflexivity.
Defined.

Lemma C1_two_completes_witness :
  exists prompt,
    In (CallModelStream prompt)
       (trace (onmessage (Demo.query_event Demo.first_question) Demo.empty_index))
    /\ posted (trace (onmessage (Demo.query_event Demo.first_question) Demo.empty_index))
       = (received_message (Demo.query_event Demo.first_question)
            :: map chunk_message (filter Js.nonempty (fragments (ollama_stream prompt)))
            ++ [complete_message; complete_message])%list
    /\ of_type "complete"
         (posted (trace (onmessage (Demo.query_event Demo.first_question) Demo.empty_index)))
       = [complete_message; complete_message].
Proof.
  apply (C1_query_posts_complete_twice
           (Demo.query_event Demo.first_question) Demo.empty_index).
  - reflexivity.
  - vm_compute. reflexivity.
Defined.

Lemma C4_relay_witness :
  of_type "chunk" (posted (trace (queryVectorStore Demo.first_question Demo.empty_index)))
  = map chunk_message (filter Js.nonempty (fragments (ollama_stream Demo.first_prompt))).
Proof.
  apply (C4_fragments_relayed_in_order Demo.first_question Demo.empty_index Demo.first_prompt).
  vm_compute. right. left. reflexivity.
Defined.

Lemma C5_ingest_witness :
  exists reading documents docs,
    trace (onmessage Demo.ingest_event Demo.empty_index)
    = (PostMessage (received_message Demo.ingest_event)
         :: reading
         ++ [CallSplitDocuments 500 50 documents;
             PostMessage {| type := "log"; data := Docs docs |};
             CallAddDocuments docs;
             PostMessage {| type := "complete"; data := Text "OK" |}])%list
    /\ forallb (fun a => negb (is_post a) && negb (is_insertion a)) reading = true
    /\ splitDocuments 500 50 documents = inr docs
    /\ voy_addDocuments Demo.empty_index docs
       = (index (onmessage Demo.ingest_event Demo.empty_index), None)
    /\ of_type "complete" (posted (trace (onmessage Demo.ingest_event Demo.empty_index)))
       = [{| type := "complete"; data := Text "OK" |}].
Proof.
  apply (C5_ingest_log_insert_complete Demo.ingest_event Demo.empty_index).
  - reflexivity.
  - vm_compute. reflexivity.
Defined.


Lemma C8_metadata_witness :
  (forall d, In d (map forget_metadata Demo.page_documents) ->
     info (pdf (doc_metadata d)) = Js.Undefined
     /\ metadata (pdf (doc_metadata d)) = Js.Undefined)
  /\ result (embedPDF Demo.nometa_url Demo.empty_index) = inr tt.
Proof.
  pose proof (C8_metadata_failure_absorbed Demo.nometa_url Demo.empty_index "nometa"
                (Demo.parsed (inl (Js.Rejected "getMetadata")))
                (Js.Rejected "getMetadata") eq_refl eq_refl eq_refl) as H.
  cbv zeta in H. destruct H as [_ H].
  set (run := embedPDF Demo.nometa_url Demo.empty_index) in *. clearbody run.
  change ((forall d, In d (map forget_metadata Demo.page_documents) ->
             info (pdf (doc_metadata d)) = Js.Undefined
             /\ metadata (pdf (doc_metadata d)) = Js.Undefined)
          /\ trace run
             = (CallAtob (encoded_part Demo.nometa_url) :: CallGetDocument "nometa"
                  :: CallGetMetadata
                  :: trace (pages_loop (Demo.parsed (inl (Js.Rejected "getMetadata")))
                              None 3 1 [] Demo.empty_index)
                  ++ [CallSplitDocuments 500 50 (map forget_metadata Demo.page_documents);
                      PostMessage {| type := "log";
                                     data := Docs (map forget_metadata Demo.page_documents) |};
                      CallAddDocuments (map forget_metadata Demo.page_documents)])%list
          /\ result run = inr tt) in H.
  split; [exact (proj1 H) | exact (proj2 (proj2 H))].
Defined.


Lemma C3_follow_up_witness :
  exists rest,
    trace (queryVectorStore Demo.follow_up Demo.empty_index)
    = CallModelInvoke
        (StringPromptValue
           (rephrase_text
              ("human: What is the title?" ++ Js.newline ++ "ai: Title")
              "And on page one?"))
        :: CallRetriever "What is on the first page?" :: rest
    /\ forallb (fun a => negb (is_model_invoke a) && negb (is_retrieval a)) rest = true.
Proof.
  exact (proj2 (C3_history_rephrased_once
                  {| role := human; content := "What is the title?" |}
                  [{| role := ai; content := "Title" |}]
                  {| role := human; content := "And on page one?" |}
                  Demo.empty_index)).
Defined.

End Witnesses.


(* ================================================================== *)
(** ** Further facts about the handler and the query flow *)
(* ================================================================== *)

Section QueryExtras.

Context {E : Externals}.

Lemma filter_all {A : Type} (p : A -> bool) (l : list A) :
  forallb p l = true -> filter p l = l.
Proof.
  induction l as [|a l IH]; [reflexivity|].
  cbn [forallb filter]. intros H. apply andb_prop in H. destruct H as [Ha Hl].
  rewrite Ha, (IH Hl). reflexivity.
Qed.

(** What [queryVectorStore] posts, on a non-empty array. *)
Lemma query_posted (history : list ChatWindowMessage) (m : ChatWindowMessage) (v : Voy) :
  let o := createRetrievalChain ollama vectorstore_asRetriever history
             (retrieval_input history m) v in
  posted (trace (queryVectorStore (history ++ [m])%list v))
  = match result o with
    | inl _ => []
    | inr formattedDocs =>
        let s := ollama_stream (response_prompt (response_input history m formattedDocs)) in
        (map chunk_message (filter Js.nonempty (fragments s))
           ++ match failure s with
              | Some _ => []
              | None => [complete_message]
              end)%list
    end.
Proof.
  intros o. rewrite queryVectorStore_run. cbv zeta. fold o.
  pose proof (retrieval_posts_nothing history (retrieval_input history m) v) as Hquiet.
  fold o in Hquiet.
  destruct (result o) as [e|formattedDocs]; cbn [trace]; [exact Hquiet|].
  rewrite posted_app, Hquiet.
  change (posted (CallModelStream ?p :: ?t)) with (posted t).
  rewrite posted_app, posted_relayed.
  destruct (failure _); reflexivity.
Qed.

Lemma query_completes (messages : option (list ChatWindowMessage)) (v : Voy) :
  of_type "complete" (posted (trace (queryVectorStore_any messages v)))
  = match result (queryVectorStore_any messages v) with
    | inl _ => []
    | inr _ => [complete_message]
    end.
Proof.
  destruct messages as [messages|]; [|reflexivity].
  cbn [queryVectorStore_any].
  destruct messages as [|m history _] using rev_ind; [reflexivity|].
  rewrite query_posted. rewrite queryVectorStore_run. cbv zeta.
  destruct (result _) as [e|formattedDocs]; [reflexivity|].
  cbn [result]. rewrite of_type_app, of_type_complete_chunks.
  destruct (failure _); reflexivity.
Qed.

Lemma query_index (messages : option (list ChatWindowMessage)) (v : Voy) :
  index (queryVectorStore_any messages v) = v.
Proof.
  destruct messages as [messages|]; [|reflexivity].
  cbn [queryVectorStore_any].
  destruct messages as [|m history _] using rev_ind; [reflexivity|].
  rewrite queryVectorStore_run. cbv zeta.
  destruct (result _); reflexivity.
Qed.

(** What [embedPDF] posts: nothing, or the log of the chunks. *)
Lemma ingest_posted (pdfDataUrl : Js.value) (v : Voy) :
  posted (trace (embedPDF_any pdfDataUrl v)) = []
  \/ exists docs,
       posted (trace (embedPDF_any pdfDataUrl v))
       = [{| type := "log"; data := Docs docs |}].
Proof.
  destruct pdfDataUrl as [| | | | | |pdfDataUrl|]; try (left; reflexivity).
  cbn [embedPDF_any]. rewrite embedPDF_run. cbv zeta.
  destruct (atob (encoded_part pdfDataUrl)) as [e|bytes]; [left; reflexivity|].
  destruct (pdf_getDocument bytes) as [e|parsedPdf]; [left; reflexivity|].
  destruct (pages_loop_shape parsedPdf (caught_metadata parsedPdf)
              (numPages parsedPdf) 1 [] v) as [_ Hpages].
  assert (Hquiet : posted (trace (pages_loop parsedPdf (caught_metadata parsedPdf)
                                    (numPages parsedPdf) 1 [] v)) = []).
  { apply posted_none. revert Hpages. apply forallb_weaken.
    intros a. destruct a; cbn; congruence. }
  destruct (result _) as [e|documents]; cbn [trace].
  { left. exact Hquiet. }
  destruct (splitDocuments 500 50 documents) as [e|docs]; cbn [trace].
  - left. rewrite posted_app.
    change (posted (CallAtob ?a :: CallGetDocument ?b :: CallGetMetadata :: ?t))
      with (posted t).
    rewrite Hquiet. reflexivity.
  - right. exists docs. rewrite posted_app.
    change (posted (CallAtob ?a :: CallGetDocument ?b :: CallGetMetadata :: ?t))
      with (posted t).
    rewrite Hquiet. reflexivity.
Qed.

(** X1: the number of [complete] messages tells how the handler ended: none
    when it failed, one after an ingest, two after a query. *)
Theorem completes_tell_outcome (event_data : EventData) (v : Voy) :
  of_type "complete" (posted (trace (onmessage event_data v)))
  = match result (onmessage event_data v) with
    | inl _ => []
    | inr _ =>
        if Js.truthy (data_pdf event_data)
        then [complete_message]
        else [complete_message; complete_message]
    end.
Proof.
  destruct (stringify_data event_data) as [e|json] eqn:Hjson.
  { rewrite (onmessage_throws _ _ _ Hjson). reflexivity. }
  rewrite (onmessage_run _ _ _ Hjson). cbv zeta. cbn [trace result].
  change (posted (PostMessage ?x :: ?t)) with (x :: posted t).
  change (of_type "complete" (received_message event_data :: ?t))
    with (of_type "complete" t).
  rewrite posted_app, of_type_app.
  destruct (Js.truthy (data_pdf event_data)).
  - destruct (ingest_posted (data_pdf event_data) v) as [Hnone|[docs Hlog]].
    + rewrite Hnone. destruct (result _); reflexivity.
    + rewrite Hlog. destruct (result _); reflexivity.
  - rewrite query_completes. destruct (result _); reflexivity.
Qed.

End QueryExtras.

Section QueryDataFlow.

Context {E : Externals}.

(** A successful retrieval searched the index once and formatted what
    the search returned. *)
Lemma retrieval_result (history : list ChatWindowMessage) (input : RetrievalInput.t)
    (v : Voy) (formattedDocs : string) :
  let o := createRetrievalChain ollama vectorstore_asRetriever history input v in
  result o = inr formattedDocs ->
  exists query docs,
    In (CallRetriever query) (trace o)
    /\ voy_similaritySearch v query = inr docs
    /\ formattedDocs = formatDocs docs.
Proof.
  destruct history as [|h hs]; cbv zeta.
  - rewrite retrieval_no_history. cbn [result trace].
    destruct (voy_similaritySearch v (RetrievalInput.question input)) as [e|docs] eqn:Hs;
      [discriminate|].
    intros [= <-]. exists (RetrievalInput.question input), docs.
    split; [left; reflexivity|]. split; [exact Hs | reflexivity].
  - rewrite retrieval_with_history. cbv zeta.
    destruct (ollama_invoke _) as [e|answer]; [discriminate|].
    cbn [result trace].
    destruct (voy_similaritySearch v (message_text answer)) as [e|docs] eqn:Hs;
      [discriminate|].
    intros [= <-]. exists (message_text answer), docs.
    split; [right; left; reflexivity|]. split; [exact Hs | reflexivity].
Qed.

(** A failed retrieval failed in the model call or in the search. *)
Lemma retrieval_failure (history : list ChatWindowMessage) (input : RetrievalInput.t)
    (v : Voy) (e : Js.error) :
  let o := createRetrievalChain ollama vectorstore_asRetriever history input v in
  result o = inl e ->
  (exists prompt, In (CallModelInvoke prompt) (trace o) /\ ollama_invoke prompt = inl e)
  \/ (exists query, In (CallRetriever query) (trace o)
                    /\ voy_similaritySearch v query = inl e).
Proof.
  destruct history as [|h hs]; cbv zeta.
  - rewrite retrieval_no_history. cbn [result trace].
    destruct (voy_similaritySearch v (RetrievalInput.question input)) as [e'|docs] eqn:Hs;
      [|discriminate].
    intros [= <-]. right. exists (RetrievalInput.question input).
    split; [left; reflexivity | exact Hs].
  - rewrite retrieval_with_history. cbv zeta.
    destruct (ollama_invoke _) as [e'|answer] eqn:Hinvoke.
    + cbn [result trace]. intros [= <-]. left. eexists.
      split; [left; reflexivity | exact Hinvoke].
    + cbn [result trace].
      destruct (voy_similaritySearch v (message_text answer)) as [e'|docs] eqn:Hs;
        [|discriminate].
      intros [= <-]. right. exists (message_text answer).
      split; [right; left; reflexivity | exact Hs].
Qed.

(** The stream is opened only after a successful retrieval, with the
    prompt built from its result. *)
Lemma stream_opened (messages : list ChatWindowMessage) (v : Voy) (prompt : PromptValue) :
  In (CallModelStream prompt) (trace (queryVectorStore messages v)) ->
  exists history m formattedDocs,
    messages = (history ++ [m])%list
    /\ result (createRetrievalChain ollama vectorstore_asRetriever history
                 (retrieval_input history m) v) = inr formattedDocs
    /\ prompt = response_prompt (response_input history m formattedDocs).
Proof.
  intros Hin.
  destruct messages as [|m history _] using rev_ind; [contradiction|].
  exists history, m.
  rewrite queryVectorStore_run in Hin. cbv zeta in Hin.
  destruct (retrieval_shape history (retrieval_input history m) v) as [_ Hshape].
  cbv zeta in Hshape.
  destruct (result _) as [e|formattedDocs]; cbn [trace] in Hin.
  { apply (holds_of_member _ _ _ Hshape) in Hin. discriminate. }
  exists formattedDocs. split; [reflexivity|]. split; [reflexivity|].
  apply in_app_or in Hin. destruct Hin as [Hin|[Hin|Hin]].
  - apply (holds_of_member _ _ _ Hshape) in Hin. discriminate.
  - congruence.
  - apply in_app_or in Hin. destruct Hin as [Hin|Hin].
    + apply (holds_of_member _ _ _ (relayed_no_calls _)) in Hin. discriminate.
    + destruct (failure _); [contradiction|].
      destruct Hin as [Hin|[]]. discriminate.
Qed.

Lemma join_empty_cons (x : string) (xs : list string) :
  Js.join "" (x :: xs) = x ++ Js.join "" xs.
Proof.
  destruct xs as [|y ys]; [cbn; symmetry; apply append_empty | reflexivity].
Qed.

Lemma chunks_rebuild (chunks : list string) :
  Js.join "" (map payload_text (map chunk_message (filter Js.nonempty chunks)))
  = Js.join "" chunks.
Proof.
  induction chunks as [|c rest IH]; [reflexivity|].
  rewrite join_empty_cons. destruct c as [|a c].
  - cbn [filter Js.nonempty]. rewrite IH. reflexivity.
  - cbn [filter Js.nonempty map]. rewrite join_empty_cons, IH. reflexivity.
Qed.

(** X3: a query fails for one of four reasons: the array is empty, the
    rephrasing call fails, the search fails, or the model stream breaks.
    In the first three cases nothing has been posted. *)
Theorem query_failure_source (messages : list ChatWindowMessage) (v : Voy)
    (e : Js.error) :
  result (queryVectorStore messages v) = inl e ->
  (messages = []
   /\ e = Js.TypeError "Cannot read properties of undefined (reading 'content')"
   /\ trace (queryVectorStore messages v) = [])
  \/ (exists prompt,
        In (CallModelInvoke prompt) (trace (queryVectorStore messages v))
        /\ ollama_invoke prompt = inl e
        /\ posted (trace (queryVectorStore messages v)) = [])
  \/ (exists query,
        In (CallRetriever query) (trace (queryVectorStore messages v))
        /\ voy_similaritySearch v query = inl e
        /\ posted (trace (queryVectorStore messages v)) = [])
  \/ (exists prompt,
        In (CallModelStream prompt) (trace (queryVectorStore messages v))
        /\ failure (ollama_stream prompt) = Some e).
Proof.
  destruct messages as [|m history _] using rev_ind.
  { cbn. intros [= <-]. left. repeat split. }
  intros Hfail. right.
  pose proof (retrieval_failure history (retrieval_input history m) v) as Hsource.
  cbv zeta in Hsource.
  rewrite queryVectorStore_run in Hfail |- *. cbv zeta in Hfail |- *.
  set (o := createRetrievalChain ollama vectorstore_asRetriever history
              (retrieval_input history m) v) in *.
  destruct (result o) as [e'|formattedDocs]; cbn [trace result] in *.
  - injection Hfail as ->.
    destruct (Hsource e eq_refl) as [[prompt [Hin Hinvoke]]|[query [Hin Hsearch]]].
    + left. exists prompt.
      split; [exact Hin|]. split; [exact Hinvoke | apply retrieval_posts_nothing].
    + right. left. exists query.
      split; [exact Hin|]. split; [exact Hsearch | apply retrieval_posts_nothing].
  - right. right. eexists. split.
    + apply in_or_app. right. left. reflexivity.
    + destruct (failure _); [congruence | discriminate].
Qed.

Lemma history_message_typed (message : ChatWindowMessage) :
  history_message message = typed_message message.
Proof. unfold history_message, typed_message. destruct (role message); reflexivity. Qed.

Lemma formatDocs_numbered (docs : list Document) :
  formatDocs docs = numbered_blocks 0 docs.
Proof.
  unfold formatDocs, Js.mapi. generalize 0.
  induction docs as [|doc rest IH]; intros i; [reflexivity|].
  destruct rest as [|doc' rest]; [reflexivity|].
  specialize (IH (S i)).
  cbn [Js.mapi_from Js.join numbered_blocks] in IH |- *.
  rewrite IH. reflexivity.
Qed.

(** X4: the prompt of the answer: the system text of lines 40-48 with,
    between its [context] tags, the numbered blocks of the documents the
    search returned; then the history as typed messages in order; and
    last a human message with the question as the user wrote it. *)
Theorem answer_prompt_contents (messages : list ChatWindowMessage) (v : Voy)
    (prompt : PromptValue) :
  In (CallModelStream prompt) (trace (queryVectorStore messages v)) ->
  exists history m query docs,
    messages = (history ++ [m])%list
    /\ In (CallRetriever query) (trace (queryVectorStore messages v))
    /\ voy_similaritySearch v query = inr docs
    /\ prompt
       = ChatPromptValue
           (SystemMessage (system_text (numbered_blocks 0 docs))
              :: map typed_message history ++ [HumanMessage (content m)])%list.
Proof.
  intros Hin.
  destruct (stream_opened _ _ _ Hin) as (history & m & formattedDocs & -> & Hresult & ->).
  destruct (retrieval_result _ _ _ _ Hresult) as (query & docs & Hcall & Hsearch & ->).
  exists history, m, query, docs.
  split; [reflexivity|]. split; [|split; [exact Hsearch|]].
  - rewrite queryVectorStore_run. cbv zeta. rewrite Hresult. cbn [trace].
    apply in_or_app. left. exact Hcall.
  - unfold response_prompt, response_input.
    cbn [ResponseInput.context ResponseInput.chat_history ResponseInput.question].
    rewrite formatDocs_numbered, (map_ext _ _ history_message_typed). reflexivity.
Qed.

(** X5: joining the payloads of the [chunk] messages gives the text the
    model streamed. *)
Theorem chunks_rebuild_answer (messages : list ChatWindowMessage) (v : Voy)
    (prompt : PromptValue) :
  In (CallModelStream prompt) (trace (queryVectorStore messages v)) ->
  Js.join "" (map payload_text
                (of_type "chunk" (posted (trace (queryVectorStore messages v)))))
  = Js.join "" (fragments (ollama_stream prompt)).
Proof.
  intros Hin.
  destruct (stream_opened _ _ _ Hin) as (history & m & formattedDocs & -> & Hresult & ->).
  rewrite query_posted. cbv zeta. rewrite Hresult.
  rewrite of_type_app, of_type_chunks.
  replace (of_type "chunk" _) with (@nil OutMessage) by (destruct (failure _); reflexivity).
  rewrite app_nil_r. apply chunks_rebuild.
Qed.


End QueryDataFlow.

(* ================================================================== *)
(** ** Further facts about the ingest flow *)
(* ================================================================== *)

Section IngestExtras.

Context {E : Externals}.

(** The loop reads pages [i], [i+1], ... in order, the page and then
    its text.  Either every read succeeds and the loop returns, or the
    loop fails with the error of the first read that fails and has made
    no call after it. *)
Lemma pages_loop_stops (parsedPdf : PDFDocumentProxy) (meta : option Meta) (todo : nat) :
  forall (i : nat) (documents : list Document) (v : Voy),
  let o := pages_loop parsedPdf meta todo i documents v in
  (exists documents',
     result o = inr documents'
     /\ trace o = flat_map page_reads (seq i todo)
     /\ forall k, i <= k < i + todo -> page_items parsedPdf k <> None)
  \/ (exists j e,
        i <= j < i + todo
        /\ result o = inl e
        /\ (forall k, i <= k < j -> page_items parsedPdf k <> None)
        /\ ((getPage parsedPdf j = inl e
             /\ trace o = (flat_map page_reads (seq i (j - i)) ++ [CallGetPage j])%list)
            \/ (exists page,
                  getPage parsedPdf j = inr page
                  /\ getTextContent page = inl e
                  /\ trace o = (flat_map page_reads (seq i (j - i)) ++ page_reads j)%list))).
Proof.
  induction todo as [|todo IH]; intros i documents v; cbv zeta.
  - left. exists documents. split; [reflexivity|]. split; [reflexivity|]. intros; lia.
  - rewrite pages_loop_step.
    destruct (getPage parsedPdf i) as [e|page] eqn:Hpage.
    { right. exists i, e. split; [lia|]. split; [reflexivity|].
      split; [intros; lia|]. left. split; [exact Hpage|].
      rewrite Nat.sub_diag. reflexivity. }
    destruct (getTextContent page) as [e|content] eqn:Hcontent.
    { right. exists i, e. split; [lia|]. split; [reflexivity|].
      split; [intros; lia|]. right. exists page.
      split; [exact Hpage|]. split; [exact Hcontent|].
      rewrite Nat.sub_diag. reflexivity. }
    pose proof (page_items_read _ _ _ _ Hpage Hcontent) as Hitems.
    cbv zeta. cbn [trace result].
    match goal with
    | |- context [pages_loop parsedPdf meta todo (i + 1) ?ds v] =>
        destruct (IH (i + 1) ds v)
          as [(documents' & Hresult & Htrace & Hread)
             |(j & e & Hj & Hresult & Hread & Hstop)]
    end.
    + left. exists documents'. split; [exact Hresult|]. split.
      * rewrite Htrace, Nat.add_1_r. reflexivity.
      * intros k Hk. destruct (Nat.eq_dec k i) as [->|Hne].
        -- rewrite Hitems. discriminate.
        -- apply Hread. lia.
    + right. exists j, e. split; [lia|]. split; [exact Hresult|]. split.
      * intros k Hk. destruct (Nat.eq_dec k i) as [->|Hne].
        -- rewrite Hitems. discriminate.
        -- apply Hread. lia.
      * assert (Hseq : flat_map page_reads (seq i (j - i))
                       = (page_reads i
                            ++ flat_map page_reads (seq (i + 1) (j - (i + 1))))%list).
        { replace (j - i) with (S (j - (i + 1))) by lia.
          cbn [seq flat_map]. rewrite Nat.add_1_r. reflexivity. }
        destruct Hstop as [[Hfail Htrace]|(page' & Hpage' & Hfail & Htrace)].
        -- left. split; [exact Hfail|]. rewrite Hseq, Htrace. reflexivity.
        -- right. exists page'. split; [exact Hpage'|]. split; [exact Hfail|].
           rewrite Hseq, Htrace. reflexivity.
Qed.

(** The page numbers of the documents pushed by a loop that ends
    normally are the pages with text, in order. *)
Lemma pages_loop_numbers (parsedPdf : PDFDocumentProxy) (meta : option Meta) (todo : nat) :
  forall (i : nat) (documents : list Document) (v : Voy) (documents' : list Document),
  result (pages_loop parsedPdf meta todo i documents v) = inr documents' ->
  map page_number documents'
  = (map page_number documents ++ filter (has_text parsedPdf) (seq i todo))%list.
Proof.
  induction todo as [|todo IH]; intros i documents v documents' Hresult.
  - cbn in Hresult. injection Hresult as <-. cbn. rewrite app_nil_r. reflexivity.
  - rewrite pages_loop_step in Hresult.
    destruct (getPage parsedPdf i) as [e|page] eqn:Hpage; [discriminate|].
    destruct (getTextContent page) as [e|content] eqn:Hcontent; [discriminate|].
    cbv zeta in Hresult. cbn [result] in Hresult.
    pose proof (page_items_read _ _ _ _ Hpage Hcontent) as Hitems.
    apply IH in Hresult. rewrite Hresult. rewrite Nat.add_1_r.
    cbn [seq filter]. unfold has_text at 2. rewrite Hitems.
    destruct (items content) as [|it its]; cbn [length Nat.eqb]; [reflexivity|].
    rewrite map_app. cbn [map]. rewrite <- app_assoc. reflexivity.
Qed.

(** X7: [embedPDF] attempts the insertion at most once, as its last
    action, right after calling the splitter and posting the log of the
    chunks the splitter returned, which are the chunks it inserts;
    nothing is posted or inserted before. *)
Theorem insertion_is_last (pdfDataUrl : string) (v : Voy) (docs : list Document) :
  In (CallAddDocuments docs) (trace (embedPDF pdfDataUrl v)) ->
  exists before documents,
    trace (embedPDF pdfDataUrl v)
    = (before ++ [CallSplitDocuments 500 50 documents;
                  PostMessage {| type := "log"; data := Docs docs |};
                  CallAddDocuments docs])%list
    /\ forallb (fun a => negb (is_post a) && negb (is_insertion a)) before = true
    /\ splitDocuments 500 50 documents = inr docs.
Proof.
  rewrite embedPDF_run. cbv zeta.
  destruct (atob (encoded_part pdfDataUrl)) as [e|bytes].
  { cbn. intros [H|[]]. discriminate. }
  destruct (pdf_getDocument bytes) as [e|parsedPdf].
  { cbn. intros [H|[H|[]]]; discriminate. }
  destruct (pages_loop_shape parsedPdf (caught_metadata parsedPdf)
              (numPages parsedPdf) 1 [] v) as [_ Hpages].
  set (o := pages_loop parsedPdf (caught_metadata parsedPdf) (numPages parsedPdf) 1 [] v)
    in *.
  assert (Hquiet : forallb (fun a => negb (is_post a) && negb (is_insertion a))
                     (CallAtob (encoded_part pdfDataUrl) :: CallGetDocument bytes
                        :: CallGetMetadata :: trace o) = true).
  { cbn [forallb is_post is_insertion negb andb].
    revert Hpages. apply forallb_weaken. intros a. destruct a; cbn; congruence. }
  assert (Hnone : forall t,
            forallb (fun a => negb (is_post a) && negb (is_insertion a)) t = true ->
            ~ In (CallAddDocuments docs) t).
  { intros t Ht Hin. apply (holds_of_member _ _ _ Ht) in Hin. discriminate. }
  destruct (result o) as [e|documents]; cbn [trace index].
  { intros Hin. exfalso. exact (Hnone _ Hquiet Hin). }
  destruct (splitDocuments 500 50 documents) as [e|docs0] eqn:Hsplit;
    cbn [trace index]; intros Hin.
  { exfalso. apply in_app_or in Hin. destruct Hin as [Hin|[Hin|[]]].
    - exact (Hnone _ Hquiet Hin).
    - discriminate. }
  apply in_app_or in Hin. destruct Hin as [Hin|[Hin|[Hin|[Hin|[]]]]];
    try discriminate; [exfalso; exact (Hnone _ Hquiet Hin)|].
  injection Hin as ->.
  eexists _, documents. split; [reflexivity|]. split; [exact Hquiet | exact Hsplit].
Qed.

(** X8: an ingest fails with the error of the first step that fails:
    decoding, when it fails; parsing, when decoding went well; the read
    of a page, when every page before it was read; the splitter, when
    every page was read; the insertion, when the splitter returned.  A
    failed read of the metadata is never the reason. *)
Theorem ingest_failure_source (pdfDataUrl : string) (v : Voy) (e : Js.error) :
  result (embedPDF pdfDataUrl v) = inl e ->
  atob (encoded_part pdfDataUrl) = inl e
  \/ (exists bytes,
        atob (encoded_part pdfDataUrl) = inr bytes /\ pdf_getDocument bytes = inl e)
  \/ (exists bytes parsedPdf i,
        atob (encoded_part pdfDataUrl) = inr bytes
        /\ pdf_getDocument bytes = inr parsedPdf
        /\ 1 <= i <= numPages parsedPdf
        /\ (forall k, 1 <= k < i -> page_items parsedPdf k <> None)
        /\ (getPage parsedPdf i = inl e
            \/ exists page, getPage parsedPdf i = inr page /\ getTextContent page = inl e))
  \/ (exists bytes parsedPdf documents,
        atob (encoded_part pdfDataUrl) = inr bytes
        /\ pdf_getDocument bytes = inr parsedPdf
        /\ (forall k, 1 <= k <= numPages parsedPdf -> page_items parsedPdf k <> None)
        /\ In (CallSplitDocuments 500 50 documents) (trace (embedPDF pdfDataUrl v))
        /\ splitDocuments 500 50 documents = inl e)
  \/ (exists bytes parsedPdf documents docs,
        atob (encoded_part pdfDataUrl) = inr bytes
        /\ pdf_getDocument bytes = inr parsedPdf
        /\ (forall k, 1 <= k <= numPages parsedPdf -> page_items parsedPdf k <> None)
        /\ splitDocuments 500 50 documents = inr docs
        /\ In (CallAddDocuments docs) (trace (embedPDF pdfDataUrl v))
        /\ snd (voy_addDocuments v docs) = Some e).
Proof.
  rewrite embedPDF_run. cbv zeta.
  destruct (atob (encoded_part pdfDataUrl)) as [e'|bytes] eqn:Hatob.
  { cbn. intros [= <-]. left. reflexivity. }
  destruct (pdf_getDocument bytes) as [e'|parsedPdf] eqn:Hdoc.
  { cbn. intros [= <-]. right. left. exists bytes. split; [reflexivity | exact Hdoc]. }
  destruct (pages_loop_stops parsedPdf (caught_metadata parsedPdf) (numPages parsedPdf)
              1 [] v)
    as [(documents & Hloop & _ & Hread)|(j & e' & Hj & Hloop & Hread & Hstop)];
    cbv zeta in Hloop; rewrite Hloop.
  2:{ cbn. intros [= <-]. right. right. left.
      exists bytes, parsedPdf, j.
      split; [reflexivity|]. split; [exact Hdoc|]. split; [lia|]. split; [exact Hread|].
      destruct Hstop as [[Hfail _]|(page & Hpage & Hfail & _)].
      - left. exact Hfail.
      - right. exists page. split; assumption. }
  assert (Hall : forall k, 1 <= k <= numPages parsedPdf -> page_items parsedPdf k <> None).
  { intros k Hk. apply Hread. lia. }
  destruct (splitDocuments 500 50 documents) as [e'|docs] eqn:Hsplit; cbn [trace result].
  { intros [= <-]. right. right. right. left. exists bytes, parsedPdf, documents.
    split; [reflexivity|]. split; [exact Hdoc|]. split; [exact Hall|].
    split; [|exact Hsplit]. apply in_or_app. right. left. reflexivity. }
  destruct (snd (voy_addDocuments v docs)) as [e'|] eqn:Hadd; [|discriminate].
  intros [= <-]. right. right. right. right. exists bytes, parsedPdf, documents, docs.
  split; [reflexivity|]. split; [exact Hdoc|]. split; [exact Hall|].
  split; [exact Hsplit|]. split; [|exact Hadd].
  apply in_or_app. right. right. right. left. reflexivity.
Qed.

(** X9: the pages of a parsed file are read in order from page 1, the
    page and then its text, each at most once.  Either every page is
    read, or the reads end with the first read that fails: pages before
    it were read, nothing is read after it, and the ingest fails with
    its error. *)
Theorem pages_read_in_order (pdfDataUrl : string) (v : Voy) (bytes : string)
    (parsedPdf : PDFDocumentProxy) :
  atob (encoded_part pdfDataUrl) = inr bytes ->
  pdf_getDocument bytes = inr parsedPdf ->
  let reads := filter is_page_action (trace (embedPDF pdfDataUrl v)) in
  (reads = flat_map page_reads (seq 1 (numPages parsedPdf))
   /\ forall k, 1 <= k <= numPages parsedPdf -> page_items parsedPdf k <> None)
  \/ (exists i e,
        1 <= i <= numPages parsedPdf
        /\ result (embedPDF pdfDataUrl v) = inl e
        /\ (forall k, 1 <= k < i -> page_items parsedPdf k <> None)
        /\ ((getPage parsedPdf i = inl e
             /\ reads = (flat_map page_reads (seq 1 (i - 1)) ++ [CallGetPage i])%list)
            \/ (exists page,
                  getPage parsedPdf i = inr page
                  /\ getTextContent page = inl e
                  /\ reads = (flat_map page_reads (seq 1 (i - 1)) ++ page_reads i)%list))).
Proof.
  intros Hatob Hdoc reads. subst reads.
  destruct (pages_loop_shape parsedPdf (caught_metadata parsedPdf)
              (numPages parsedPdf) 1 [] v) as [_ Hpages].
  rewrite embedPDF_run. cbv zeta. rewrite Hatob, Hdoc.
  set (o := pages_loop parsedPdf (caught_metadata parsedPdf) (numPages parsedPdf) 1 [] v)
    in *.
  assert (Hfilter : forall suffix,
            forallb (fun a => negb (is_page_action a)) suffix = true ->
            filter is_page_action
              ((CallAtob (encoded_part pdfDataUrl) :: CallGetDocument bytes
                  :: CallGetMetadata :: trace o) ++ suffix)
            = trace o).
  { intros suffix Hsuffix. cbn [app filter is_page_action].
    rewrite filter_app, (filter_all _ _ Hpages).
    rewrite (filter_none is_page_action suffix), app_nil_r; [reflexivity|].
    intros a Ha. apply (holds_of_member _ _ _ Hsuffix) in Ha.
    destruct (is_page_action a); [discriminate | reflexivity]. }
  destruct (pages_loop_stops parsedPdf (caught_metadata parsedPdf) (numPages parsedPdf)
              1 [] v)
    as [(documents & Hloop & Htrace & Hread)|(j & e & Hj & Hloop & Hread & Hstop)];
    cbv zeta in Hloop, Htrace || cbv zeta in Hloop; fold o in Hloop; rewrite Hloop.
  - left. fold o in Htrace. split; [|intros k Hk; apply Hread; lia].
    destruct (splitDocuments 500 50 documents) as [e|docs]; cbn [trace];
      rewrite Hfilter by reflexivity; exact Htrace.
  - right. exists j, e. cbn [trace result].
    rewrite <- (app_nil_r (_ :: _ :: _ :: trace o)), (Hfilter [] eq_refl).
    split; [lia|]. split; [reflexivity|]. split; [exact Hread|].
    fold o in Hstop.
    destruct Hstop as [[Hfail Htrace]|(page & Hpage & Hfail & Htrace)].
    + left. split; [exact Hfail | exact Htrace].
    + right. exists page. split; [exact Hpage|]. split; [exact Hfail | exact Htrace].
Qed.

(** X10: the documents handed to the splitter follow the pages: their page
    numbers are the numbers of the pages with text, in increasing order,
    so there are as many documents as pages with text. *)
Theorem documents_follow_pages (pdfDataUrl : string) (v : Voy)
    (chunkSize chunkOverlap : nat) (documents : list Document) :
  In (CallSplitDocuments chunkSize chunkOverlap documents) (trace (embedPDF pdfDataUrl v)) ->
  exists bytes parsedPdf,
    atob (encoded_part pdfDataUrl) = inr bytes
    /\ pdf_getDocument bytes = inr parsedPdf
    /\ map page_number documents
       = filter (has_text parsedPdf) (seq 1 (numPages parsedPdf)).
Proof.
  intros Hin.
  destruct (ingest_reaches_split _ _ _ _ _ Hin)
    as (bytes & parsedPdf & Hatob & Hdoc & Hloop & _ & _).
  exists bytes, parsedPdf. split; [exact Hatob|]. split; [exact Hdoc|].
  apply pages_loop_numbers in Hloop. exact Hloop.
Qed.

End IngestExtras.

(* ================================================================== *)
(** ** The data URL and the context string *)
(* ================================================================== *)

Section Strings.

Context {E : Externals}.

Lemma append_assoc (a b c : string) : (a ++ b) ++ c = a ++ (b ++ c).
Proof. induction a as [|x a IH]; cbn; [reflexivity | now rewrite IH]. Qed.



Lemma mapi_from_app {A B : Type} (f : A -> nat -> B) (l1 l2 : list A) :
  forall i,
    Js.mapi_from f i (l1 ++ l2)
    = (Js.mapi_from f i l1 ++ Js.mapi_from f (i + length l1) l2)%list.
Proof.
  induction l1 as [|a l1 IH]; intros i; cbn [app Js.mapi_from length].
  - rewrite Nat.add_0_r. reflexivity.
  - rewrite IH. replace (S i + length l1) with (i + S (length l1)) by lia. reflexivity.
Qed.

Lemma join_snoc (sep : string) (l : list string) (x : string) :
  Js.join sep (l ++ [x])
  = match l with
    | [] => x
    | _ :: _ => Js.join sep l ++ sep ++ x
    end.
Proof.
  induction l as [|a l IH]; [reflexivity|].
  cbn [app]. destruct l as [|b l]; [reflexivity|].
  change (Js.join sep (a :: (b :: l) ++ [x]))
    with (a ++ sep ++ Js.join sep ((b :: l) ++ [x])).
  rewrite IH.
  change (Js.join sep (a :: b :: l)) with (a ++ sep ++ Js.join sep (b :: l)).
  rewrite !append_assoc. reflexivity.
Qed.


(** X12: the context string numbers the documents by position, from 0, one
    block per document, the blocks separated by a newline; no document
    gives the empty string. *)
Theorem formatDocs_blocks (docs : list Document) (doc : Document) :
  formatDocs [] = ""
  /\ formatDocs (docs ++ [doc])
     = match docs with
       | [] => doc_block doc 0
       | _ :: _ => formatDocs docs ++ Js.newline ++ doc_block doc (length docs)
       end.
Proof.
  split; [reflexivity|].
  unfold formatDocs, Js.mapi. rewrite mapi_from_app. cbn [Js.mapi_from Nat.add].
  rewrite join_snoc. fold (doc_block doc (length docs)).
  destruct docs as [|d docs]; reflexivity.
Qed.

End Strings.

(* ================================================================== *)
(** ** One message after another *)
(* ================================================================== *)

Section Sequence.

Context {E : Externals}.

(** An ingest message that runs to its end, opened up. *)
Lemma successful_ingest (event_data : EventData) (v : Voy) :
  Js.truthy (data_pdf event_data) = true ->
  result (onmessage event_data v) = inr tt ->
  exists docs,
    In (CallAddDocuments docs) (trace (onmessage event_data v))
    /\ voy_addDocuments v docs = (index (onmessage event_data v), None).
Proof.
  intros Hpdf Hok.
  destruct (serialised_when_ok _ _ Hok) as [json Hjson].
  rewrite (onmessage_run _ _ _ Hjson) in *. cbv zeta in *. rewrite Hpdf in *.
  cbn [trace index result] in *.
  destruct (data_pdf event_data) as [| | | | | |pdfDataUrl|]; try discriminate.
  cbn [embedPDF_any] in *. rewrite embedPDF_run in *. cbv zeta in *.
  destruct (atob (encoded_part pdfDataUrl)) as [e|bytes]; [discriminate|].
  destruct (pdf_getDocument bytes) as [e|parsedPdf]; [discriminate|].
  destruct (result (pages_loop parsedPdf (caught_metadata parsedPdf)
                      (numPages parsedPdf) 1 [] v)) as [e|documents]; [discriminate|].
  destruct (splitDocuments 500 50 documents) as [e|docs]; [discriminate|].
  cbn [trace index result] in *.
  destruct (voy_addDocuments v docs) as [v' [e|]] eqn:Hadd; [discriminate|].
  cbn [fst snd] in *.
  exists docs. split; [|exact Hadd].
  right. apply in_or_app. left. apply in_or_app. right.
  right. right. left. reflexivity.
Qed.

(** The stream call of a query message is the stream call of
    [queryVectorStore] on its [messages]. *)
Lemma handler_stream_call (event_data : EventData) (v : Voy) (prompt : PromptValue) :
  Js.truthy (data_pdf event_data) = false ->
  In (CallModelStream prompt) (trace (onmessage event_data v)) ->
  exists messages,
    data_messages event_data = Some messages
    /\ In (CallModelStream prompt) (trace (queryVectorStore messages v)).
Proof.
  intros Hpdf Hin.
  destruct (stringify_data event_data) as [e|json] eqn:Hjson.
  { rewrite (onmessage_throws _ _ _ Hjson) in Hin. contradiction. }
  rewrite (onmessage_run _ _ _ Hjson) in Hin. cbv zeta in Hin. rewrite Hpdf in Hin.
  cbn [trace] in Hin.
  destruct Hin as [Hin|Hin]; [discriminate|].
  apply in_app_or in Hin. destruct Hin as [Hin|Hin].
  - destruct (data_messages event_data) as [messages|]; [|contradiction].
    exists messages. split; [reflexivity | exact Hin].
  - destruct (result _); [contradiction|]. destruct Hin as [Hin|[]]. discriminate.
Qed.

(** X13: a query handled on the index a successful ingest left searches
    the index that the insertion of the ingested chunks returned, and
    the documents that search finds are, as numbered blocks, what stands
    between the [context] tags of the answer prompt. *)
Theorem query_after_ingest (ingest query : EventData) (v : Voy) (prompt : PromptValue) :
  Js.truthy (data_pdf ingest) = true ->
  result (onmessage ingest v) = inr tt ->
  Js.truthy (data_pdf query) = false ->
  In (CallModelStream prompt) (trace (onmessage query (index (onmessage ingest v)))) ->
  exists docs v' history m searched found,
    In (CallAddDocuments docs) (trace (onmessage ingest v))
    /\ voy_addDocuments v docs = (v', None)
    /\ data_messages query = Some (history ++ [m])%list
    /\ In (CallRetriever searched) (trace (onmessage query v'))
    /\ voy_similaritySearch v' searched = inr found
    /\ prompt
       = ChatPromptValue
           (SystemMessage (system_text (numbered_blocks 0 found))
              :: map typed_message history ++ [HumanMessage (content m)])%list.
Proof.
  intros Hpdf Hok Hquery Hin.
  destruct (successful_ingest ingest v Hpdf Hok) as (docs & Hcall & Hadd).
  set (v' := index (onmessage ingest v)) in *.
  destruct (handler_stream_call query v' prompt Hquery Hin) as (messages & Hmessages & Hin').
  destruct (stream_opened _ _ _ Hin') as (history & m & formattedDocs & -> & Hresult & ->).
  destruct (retrieval_result _ _ _ _ Hresult) as (searched & found & Hsearch & Hfound & ->).
  exists docs, v', history, m, searched, found.
  split; [exact Hcall|]. split; [exact Hadd|]. split; [exact Hmessages|].
  split; [|split; [exact Hfound|]].
  - destruct (stringify_data query) as [e|json] eqn:Hjson.
    { rewrite (onmessage_throws _ _ _ Hjson) in Hin. contradiction. }
    rewrite (onmessage_run _ _ _ Hjson). cbv zeta. rewrite Hquery, Hmessages.
    cbn [trace queryVectorStore_any]. right. apply in_or_app. left.
    rewrite queryVectorStore_run. cbv zeta. rewrite Hresult. cbn [trace].
    apply in_or_app. left. exact Hsearch.
  - unfold response_prompt, response_input.
    cbn [ResponseInput.context ResponseInput.chat_history ResponseInput.question].
    rewrite formatDocs_numbered, (map_ext _ _ history_message_typed). reflexivity.
Qed.

End Sequence.

(* ================================================================== *)
(** ** The further facts at work in the demo worlds *)
(* ================================================================== *)

Section MoreWitnesses.

#[local] Existing Instance Demo.world.

Lemma query_failure_witness :
  let run := @queryVectorStore Demo.offline Demo.follow_up [] in
  (Demo.follow_up = []
   /\ Demo.offline_error
      = Js.TypeError "Cannot read properties of undefined (reading 'content')"
   /\ trace run = [])
  \/ (exists prompt,
        In (CallModelInvoke prompt) (trace run)
        /\ @ollama_invoke Demo.offline prompt = inl Demo.offline_error
        /\ posted (trace run) = [])
  \/ (exists query,
        In (CallRetriever query) (trace run)
        /\ @voy_similaritySearch Demo.offline [] query = inl Demo.offline_error
        /\ posted (trace run) = [])
  \/ (exists prompt,
        In (CallModelStream prompt) (trace run)
        /\ failure (@ollama_stream Demo.offline prompt) = Some Demo.offline_error).
Proof.
  apply (@query_failure_source Demo.offline Demo.follow_up [] Demo.offline_error).
  vm_compute. reflexivity.
Defined.

Lemma answer_prompt_witness :
  exists history m query docs,
    Demo.follow_up = (history ++ [m])%list
    /\ In (CallRetriever query) (trace (queryVectorStore Demo.follow_up Demo.loaded_index))
    /\ voy_similaritySearch Demo.loaded_index query = inr docs
    /\ Demo.informed_prompt
       = ChatPromptValue
           (SystemMessage (system_text (numbered_blocks 0 docs))
              :: map typed_message history ++ [HumanMessage (content m)])%list.
Proof.
  apply (answer_prompt_contents Demo.follow_up Demo.loaded_index Demo.informed_prompt).
  vm_compute. right. right. left. reflexivity.
Defined.

Lemma chunks_rebuild_witness :
  Js.join "" (map payload_text
                (of_type "chunk"
                   (posted (trace (queryVectorStore Demo.first_question Demo.empty_index)))))
  = Js.join "" (fragments (ollama_stream Demo.first_prompt)).
Proof.
  apply (chunks_rebuild_answer Demo.first_question Demo.empty_index Demo.first_prompt).
  vm_compute. right. left. reflexivity.
Defined.


Lemma insertion_is_last_witness :
  exists before documents,
    trace (embedPDF "data:application/pdf;base64,AAAA" Demo.empty_index)
    = (before ++ [CallSplitDocuments 500 50 documents;
                  PostMessage {| type := "log"; data := Docs Demo.page_documents |};
                  CallAddDocuments Demo.page_documents])%list
    /\ forallb (fun a => negb (is_post a) && negb (is_insertion a)) before = true
    /\ splitDocuments 500 50 documents = inr Demo.page_documents.
Proof.
  apply (insertion_is_last "data:application/pdf;base64,AAAA" Demo.empty_index
           Demo.page_documents).
  vm_compute. do 11 right. left. reflexivity.
Defined.

Lemma ingest_failure_witness :
  let url := "data:application/pdf;base64,BBBB" in
  let e := Js.Rejected "Invalid page request" in
  @atob Demo.offline (encoded_part url) = inl e
  \/ (exists bytes,
        @atob Demo.offline (encoded_part url) = inr bytes
        /\ @pdf_getDocument Demo.offline bytes = inl e)
  \/ (exists bytes parsedPdf i,
        @atob Demo.offline (encoded_part url) = inr bytes
        /\ @pdf_getDocument Demo.offline bytes = inr parsedPdf
        /\ 1 <= i <= numPages parsedPdf
        /\ (forall k, 1 <= k < i -> page_items parsedPdf k <> None)
        /\ (getPage parsedPdf i = inl e
            \/ exists page, getPage parsedPdf i = inr page /\ getTextContent page = inl e))
  \/ (exists bytes parsedPdf documents,
        @atob Demo.offline (encoded_part url) = inr bytes
        /\ @pdf_getDocument Demo.offline bytes = inr parsedPdf
        /\ (forall k, 1 <= k <= numPages parsedPdf -> page_items parsedPdf k <> None)
        /\ In (CallSplitDocuments 500 50 documents) (trace (@embedPDF Demo.offline url []))
        /\ @splitDocuments Demo.offline 500 50 documents = inl e)
  \/ (exists bytes parsedPdf documents docs,
        @atob Demo.offline (encoded_part url) = inr bytes
        /\ @pdf_getDocument Demo.offline bytes = inr parsedPdf
        /\ (forall k, 1 <= k <= numPages parsedPdf -> page_items parsedPdf k <> None)
        /\ @splitDocuments Demo.offline 500 50 documents = inr docs
        /\ In (CallAddDocuments docs) (trace (@embedPDF Demo.offline url []))
        /\ snd (@voy_addDocuments Demo.offline [] docs) = Some e).
Proof.
  apply (@ingest_failure_source Demo.offline "data:application/pdf;base64,BBBB" []
           (Js.Rejected "Invalid page request")).
  vm_compute. reflexivity.
Defined.

Lemma pages_read_witness :
  let reads :=
    filter is_page_action
      (trace (@embedPDF Demo.offline "data:application/pdf;base64,BBBB" [])) in
  (reads = flat_map page_reads (seq 1 (numPages Demo.four_pages))
   /\ forall k, 1 <= k <= numPages Demo.four_pages -> page_items Demo.four_pages k <> None)
  \/ (exists i e,
        1 <= i <= numPages Demo.four_pages
        /\ result (@embedPDF Demo.offline "data:application/pdf;base64,BBBB" []) = inl e
        /\ (forall k, 1 <= k < i -> page_items Demo.four_pages k <> None)
        /\ ((getPage Demo.four_pages i = inl e
             /\ reads = (flat_map page_reads (seq 1 (i - 1)) ++ [CallGetPage i])%list)
            \/ (exists page,
                  getPage Demo.four_pages i = inr page
                  /\ getTextContent page = inl e
                  /\ reads = (flat_map page_reads (seq 1 (i - 1)) ++ page_reads i)%list))).
Proof.
  apply (@pages_read_in_order Demo.offline "data:application/pdf;base64,BBBB" []
           "BBBB" Demo.four_pages); reflexivity.
Defined.

Lemma documents_follow_pages_witness :
  exists bytes parsedPdf,
    atob (encoded_part "data:application/pdf;base64,AAAA") = inr bytes
    /\ pdf_getDocument bytes = inr parsedPdf
    /\ map page_number Demo.page_documents
       = filter (has_text parsedPdf) (seq 1 (numPages parsedPdf)).
Proof.
  apply (documents_follow_pages "data:application/pdf;base64,AAAA" Demo.empty_index
           500 50 Demo.page_documents).
  vm_compute. do 9 right. left. reflexivity.
Defined.


Lemma query_after_ingest_witness :
  exists docs v' history m searched found,
    In (CallAddDocuments docs) (trace (onmessage Demo.ingest_event Demo.empty_index))
    /\ voy_addDocuments Demo.empty_index docs = (v', None)
    /\ data_messages (Demo.query_event Demo.follow_up) = Some (history ++ [m])%list
    /\ In (CallRetriever searched)
          (trace (onmessage (Demo.query_event Demo.follow_up) v'))
    /\ voy_similaritySearch v' searched = inr found
    /\ Demo.informed_prompt
       = ChatPromptValue
           (SystemMessage (system_text (numbered_blocks 0 found))
              :: map typed_message history ++ [HumanMessage (content m)])%list.
Proof.
  apply (query_after_ingest Demo.ingest_event (Demo.query_event Demo.follow_up)
           Demo.empty_index Demo.informed_prompt).
  - reflexivity.
  - vm_compute. reflexivity.
  - reflexivity.
  - vm_compute. do 3 right. left. reflexivity.
Defined.

End MoreWitnesses.
